(** * fastmcp/server/server.py: the composite registry

    A shallow embedding of [MountedServer], [TimedCache] and the registry
    part of [FastMCP] (listing, dispatch, mutation, mount and import),
    followed by the properties of that code.

    Conventions of the embedding.
    - A [FastMCP] instance is a mutable object that several owners may hold
      (a parent through a mount, the user directly).  Instances live in a
      store indexed by [ServerId]; a [MountedServer] holds the identifier of
      its target, not a copy.
    - [datetime.datetime.now()] is the argument [now] of the operations that
      read the clock; times and durations are integers (microseconds).
    - [await] is sequencing: one call runs to completion.
    - The dictionaries of items are finite maps, since the code never
      depends on their order; the mount dictionary, which is iterated for
      precedence, keeps its insertion order.
    - A call that recurses through mounts takes [fuel]; [None] means the
      recursion did not come back within it (a mount cycle never does).
    - [TimedCache.set] is the cache a call that returns leaves.  The
      [OverflowError] of an expiry outside the range of [datetime] is not
      threaded through the listings; [TimedCache.set_returns] tells when the
      call returns. *)

From stdpp Require Import base option strings list gmap.

(** ** Python built-ins used by the source *)

Module Py.

(** [s.startswith(prefix)] *)
Fixpoint startswith (s prefix : string) {struct prefix} : bool :=
  match prefix, s with
  | EmptyString, _ => true
  | String _ _, EmptyString => false
  | String c prefix', String d s' =>
      if Ascii.eqb c d then startswith s' prefix' else false
  end.

(** [s[n:]] *)
Fixpoint slice_from (n : nat) (s : string) : string :=
  match n, s with
  | O, _ => s
  | S _, EmptyString => EmptyString
  | S n', String _ s' => slice_from n' s'
  end.

(** [s.removeprefix(prefix)]: [s[len(prefix):]] when [s] starts with
    [prefix], and [s] itself otherwise. *)
Definition removeprefix (s prefix : string) : string :=
  if startswith s prefix then slice_from (String.length prefix) s else s.

(** An insertion-ordered [dict] with string keys, for the one dictionary
    whose iteration order the code relies on.  A dict holds at most one
    entry per key. *)
Abbreviation odict V := (list (string * V)).

Fixpoint od_get {V} (k : string) (d : odict V) : option V :=
  match d with
  | [] => None
  | (k', v) :: d' => if decide (k' = k) then Some v else od_get k d'
  end.

(** [d[k] = v]: an existing key keeps its position, a new key goes last. *)
Fixpoint od_set {V} (k : string) (v : V) (d : odict V) : odict V :=
  match d with
  | [] => [(k, v)]
  | (k', v') :: d' =>
      if decide (k' = k) then (k, v) :: d' else (k', v') :: od_set k v d'
  end.

(** The entries left by [d.pop(k)]. *)
Definition od_remove {V} (k : string) (d : odict V) : odict V :=
  filter (fun kv => kv.1 <> k) d.

(** [d.pop(k)] without a default: [None] stands for the [KeyError]. *)
Definition od_pop {V} (k : string) (d : odict V) : option (V * odict V) :=
  match od_get k d with
  | Some v => Some (v, od_remove k d)
  | None => None
  end.

(** [d.values()] *)
Definition od_values {V} (d : odict V) : list V := d.*2.

(** [d.update(other)] on dictionaries whose order is not observed. *)
Definition update {V} (d other : gmap string V) : gmap string V := other ∪ d.

(** [x if x is not None else dflt] *)
Definition or_default {A} (x : option A) (dflt : A) : A :=
  match x with Some a => a | None => dflt end.

End Py.

(** ** Exceptions and results *)

(** An exception object raised by the code of an item (a tool function, a
    resource reader, a prompt function).  The server observes two things of
    it: whether [except Exception] catches it, and [str(e)]. *)
Record BaseException := {
  isinstance_Exception : bool;
  exc_str : string
}.

Inductive PyExc :=
| NotFoundError (msg : string)
| ResourceError (msg : string)
| KeyError (key : string)
| DuplicateError (key : string)
| ItemRaised (e : BaseException).

Inductive Outcome (A : Type) :=
| Return (a : A)
| Raise (e : PyExc).
Arguments Return {A} a.
Arguments Raise {A} e.

(** What a method of an item does when called. *)
Inductive ItemResult (A : Type) :=
| Returns (a : A)
| Raises (e : BaseException).
Arguments Returns {A} a.
Arguments Raises {A} e.

(** ** TimedCache *)

Definition Time := Z.

Module TimedCache.

(** [NOT_FOUND = object()]: a value of its own, different from everything a
    caller can have stored. *)
Inductive lookup (V : Type) :=
| Found (value : V)
| NOT_FOUND.
Arguments Found {V} value.
Arguments NOT_FOUND {V}.

Record t (V : Type) := Make {
  expiration : Z;
  cache : gmap string (V * Time)
}.
Arguments Make {V} expiration cache.
Arguments expiration {V} t.
Arguments cache {V} t.

Definition init {V} (expiration : Z) : t V := Make expiration ∅.

(** [datetime.max - datetime.min] in microseconds: times are counted from
    [datetime.min]. *)
Definition datetime_max : Z := 315537897599999999.

(** [datetime.datetime.now() + self.expiration] raises [OverflowError] when
    the sum leaves the range of [datetime]; the call then stores nothing.
    [set_returns] tells whether the call returns, and [set] is the cache a
    call that returns leaves. *)
Definition set_returns {V} (self : t V) (now : Time) : bool :=
  bool_decide (0 <= now + expiration self <= datetime_max)%Z.

Definition set {V} (self : t V) (key : string) (value : V) (now : Time) : t V :=
  let expires := (now + expiration self)%Z in
  Make (expiration self) (<[key := (value, expires)]> (cache self)).

Definition get {V} (self : t V) (key : string) (now : Time) : lookup V :=
  match cache self !! key with
  | Some value => if bool_decide (value.2 > now)%Z then Found value.1 else NOT_FOUND
  | None => NOT_FOUND
  end.

Definition clear {V} (self : t V) : t V := Make (expiration self) ∅.

End TimedCache.

(** ** MountedServer *)

Definition ServerId := nat.

Module MountedServer.

Record t := Make {
  server : ServerId;
  prefix : string;
  tool_separator : string;
  resource_separator : string;
  prompt_separator : string
}.

(** [MountedServer.__init__] *)
Definition init (prefix : string) (server : ServerId)
    (tool_separator resource_separator prompt_separator : option string) : t :=
  let tool_separator := Py.or_default tool_separator "_" in
  let resource_separator := Py.or_default resource_separator "+" in
  let prompt_separator := Py.or_default prompt_separator "_" in
  Make server prefix tool_separator resource_separator prompt_separator.

Definition match_tool (self : t) (key : string) : bool :=
  Py.startswith key (prefix self +:+ tool_separator self).

Definition strip_tool_prefix (self : t) (key : string) : string :=
  Py.removeprefix key (prefix self +:+ tool_separator self).

Definition match_resource (self : t) (key : string) : bool :=
  Py.startswith key (prefix self +:+ resource_separator self).

Definition strip_resource_prefix (self : t) (key : string) : string :=
  Py.removeprefix key (prefix self +:+ resource_separator self).

Definition match_prompt (self : t) (key : string) : bool :=
  Py.startswith key (prefix self +:+ prompt_separator self).

Definition strip_prompt_prefix (self : t) (key : string) : string :=
  Py.removeprefix key (prefix self +:+ prompt_separator self).

End MountedServer.

(** ** Collaborators outside server.py

    The item classes ([Tool], [Resource], [ResourceTemplate], [Prompt]) and
    what builds them from a function are imported by server.py.  The server
    stores the objects and calls one method of each; those methods are the
    fields below. *)

Record Context (RequestContext : Type) := MakeContext {
  request_context : option RequestContext;
  fastmcp : ServerId
}.
Arguments MakeContext {RequestContext} request_context fastmcp.
Arguments request_context {RequestContext} c.
Arguments fastmcp {RequestContext} c.

Class Collaborators := {
  Item : Type;
  AnyFunction : Type;
  Arguments_ : Type;
  Content : Type;
  RequestContext : Type;
  (** the key an item is stored under when the caller gives none *)
  Item_key : Item -> string;
  (** [Tool.run(arguments, context)] *)
  Tool_run : Item -> Arguments_ -> Context RequestContext -> ItemResult Content;
  (** [Resource.read()] and [Resource.mime_type] *)
  Resource_read : Item -> ItemResult Content;
  Resource_mime_type : Item -> string;
  (** [Prompt.render(arguments)] *)
  Prompt_render : Item -> option Arguments_ -> ItemResult Content;
  to_jsonable_python : Content -> Content;
  (** [Tool.from_function(fn, name, description, tags)] *)
  Tool_from_function :
    AnyFunction -> option string -> option string -> option (list string) -> Item;
  (** [Prompt.from_function(fn, name, description, tags)] *)
  Prompt_from_function :
    AnyFunction -> option string -> option string -> option (list string) -> Item;
  (** the resource or template built from a function and a URI, and which
      of the two it is *)
  Resource_from_function :
    AnyFunction -> string -> option string -> option string -> option string ->
    option (list string) -> Item;
  is_template : AnyFunction -> string -> bool
}.

(** ** Leaf registries *)

Inductive DuplicateBehavior := reject | warn | overwrite.

Section Registry.
Context `{Collaborators}.

(** Modelled from the spec: the write of a leaf registry ([ToolManager],
    [ResourceManager], [PromptManager] are not part of server.py).  A leaf
    registry maps keys to items; a write to a key already present is
    resolved by the configured policy: rejected, or overwritten with or
    without a warning. *)
Definition leaf_add (policy : DuplicateBehavior) (items : gmap string Item)
    (item : Item) (key : option string) : Outcome (gmap string Item) :=
  let key := Py.or_default key (Item_key item) in
  match items !! key, policy with
  | Some _, reject => Raise (DuplicateError key)
  | _, _ => Return (<[key := item]> items)
  end.

(** Modelled from the spec: the three leaf registries, each a mapping from
    key to item with its duplicate policy; the resource manager holds the
    resources and the templates. *)
Record ToolManager := MakeToolManager {
  _tools : gmap string Item;
  tool_duplicate_behavior : DuplicateBehavior
}.

Record ResourceManager := MakeResourceManager {
  _resources : gmap string Item;
  _templates : gmap string Item;
  resource_duplicate_behavior : DuplicateBehavior
}.

Record PromptManager := MakePromptManager {
  _prompts : gmap string Item;
  prompt_duplicate_behavior : DuplicateBehavior
}.

(** Modelled from the spec: [ToolManager.get_tools], "get all entries". *)
Definition ToolManager_get_tools (m : ToolManager) : gmap string Item := _tools m.

(** Modelled from the spec: [ToolManager.has_tool], "does key exist". *)
Definition ToolManager_has_tool (m : ToolManager) (key : string) : bool :=
  bool_decide (is_Some (_tools m !! key)).

(** Modelled from the spec: [ToolManager.add_tool], a write under the duplicate
    policy; the key defaults to the identifier of the item. *)
Definition ToolManager_add_tool (m : ToolManager) (tool : Item)
    (key : option string) : Outcome ToolManager :=
  match leaf_add (tool_duplicate_behavior m) (_tools m) tool key with
  | Return tools => Return (MakeToolManager tools (tool_duplicate_behavior m))
  | Raise e => Raise e
  end.

(** Modelled from the spec: [ToolManager.add_tool_from_fn], the tool built from
    the function, written under its own name. *)
Definition ToolManager_add_tool_from_fn (m : ToolManager) (fn : AnyFunction)
    (name description : option string) (tags : option (list string))
    : Outcome ToolManager :=
  ToolManager_add_tool m (Tool_from_function fn name description tags) None.

(** What the caller of an item's method sees. *)
Definition item_outcome {A} (r : ItemResult A) : Outcome A :=
  match r with
  | Returns a => Return a
  | Raises e => Raise (ItemRaised e)
  end.

(** Modelled from the spec: [ToolManager.call_tool], "invoke by key"; the tool
    runs with the arguments and the context. *)
Definition ToolManager_call_tool (m : ToolManager) (key : string)
    (arguments : Arguments_) (context : Context RequestContext) : Outcome Content :=
  match _tools m !! key with
  | Some tool => item_outcome (Tool_run tool arguments context)
  | None => Raise (NotFoundError ("Unknown tool: " +:+ key))
  end.

(** Modelled from the spec: [ResourceManager.get_resources], "get all
    entries" of the resource registry. *)
Definition ResourceManager_get_resources (m : ResourceManager) : gmap string Item :=
  _resources m.

(** Modelled from the spec: [ResourceManager.get_templates], "get all entries"
    of the template registry. *)
Definition ResourceManager_get_templates (m : ResourceManager) : gmap string Item :=
  _templates m.

(** Modelled from the spec: [ResourceManager.has_resource], "does key exist". *)
Definition ResourceManager_has_resource (m : ResourceManager) (uri : string) : bool :=
  bool_decide (is_Some (_resources m !! uri)).

(** Modelled from the spec: [ResourceManager.get_resource], the resource stored
    under the URI. *)
Definition ResourceManager_get_resource (m : ResourceManager) (uri : string)
    : Outcome Item :=
  match _resources m !! uri with
  | Some resource => Return resource
  | None => Raise (NotFoundError ("Unknown resource: " +:+ uri))
  end.

(** Modelled from the spec: [ResourceManager.add_resource], a write under the
    duplicate policy. *)
Definition ResourceManager_add_resource (m : ResourceManager) (resource : Item)
    (key : option string) : Outcome ResourceManager :=
  match leaf_add (resource_duplicate_behavior m) (_resources m) resource key with
  | Return resources =>
      Return (MakeResourceManager resources (_templates m) (resource_duplicate_behavior m))
  | Raise e => Raise e
  end.

(** Modelled from the spec: [ResourceManager.add_template], a write to the
    template registry under the duplicate policy. *)
Definition ResourceManager_add_template (m : ResourceManager) (template : Item)
    (key : option string) : Outcome ResourceManager :=
  match leaf_add (resource_duplicate_behavior m) (_templates m) template key with
  | Return templates =>
      Return (MakeResourceManager (_resources m) templates (resource_duplicate_behavior m))
  | Raise e => Raise e
  end.

(** Modelled from the spec: [ResourceManager.add_resource_or_template_from_fn],
    the resource or template built from the function and the URI, written
    to its registry; server.py passes no key, so the key is the identifier
    of the item (which need not be the URI as it was given). *)
Definition ResourceManager_add_resource_or_template_from_fn (m : ResourceManager)
    (fn : AnyFunction) (uri : string) (name description mime_type : option string)
    (tags : option (list string)) : Outcome ResourceManager :=
  let item := Resource_from_function fn uri name description mime_type tags in
  if is_template fn uri
  then ResourceManager_add_template m item None
  else ResourceManager_add_resource m item None.

(** Modelled from the spec: [PromptManager.get_prompts], "get all entries". *)
Definition PromptManager_get_prompts (m : PromptManager) : gmap string Item :=
  _prompts m.

(** Modelled from the spec: [PromptManager.has_prompt], "does key exist". *)
Definition PromptManager_has_prompt (m : PromptManager) (key : string) : bool :=
  bool_decide (is_Some (_prompts m !! key)).

(** Modelled from the spec: [PromptManager.add_prompt], a write under the
    duplicate policy; the key defaults to the identifier of the item. *)
Definition PromptManager_add_prompt (m : PromptManager) (prompt : Item)
    (key : option string) : Outcome PromptManager :=
  match leaf_add (prompt_duplicate_behavior m) (_prompts m) prompt key with
  | Return prompts => Return (MakePromptManager prompts (prompt_duplicate_behavior m))
  | Raise e => Raise e
  end.

(** Modelled from the spec: [PromptManager.add_prompt_from_fn], the prompt built
    from the function, written under its own name. *)
Definition PromptManager_add_prompt_from_fn (m : PromptManager) (fn : AnyFunction)
    (name description : option string) (tags : option (list string))
    : Outcome PromptManager :=
  PromptManager_add_prompt m (Prompt_from_function fn name description tags) None.

(** Modelled from the spec: [PromptManager.render_prompt], "render by key". *)
Definition PromptManager_render_prompt (m : PromptManager) (name : string)
    (arguments : option Arguments_) : Outcome Content :=
  match _prompts m !! name with
  | Some prompt => item_outcome (Prompt_render prompt arguments)
  | None => Raise (NotFoundError ("Unknown prompt: " +:+ name))
  end.

(** ** FastMCP: the object and the store *)

Record FastMCP := MakeFastMCP {
  _cache : TimedCache.t (gmap string Item);
  _mounted_servers : Py.odict MountedServer.t;
  _tool_manager : ToolManager;
  _resource_manager : ResourceManager;
  _prompt_manager : PromptManager
}.

(** [FastMCP.__init__]: an empty cache with the configured expiration, no
    mounts, empty managers with the configured duplicate policies. *)
Definition FastMCP_init (cache_expiration : Z)
    (on_duplicate_tools on_duplicate_resources on_duplicate_prompts : DuplicateBehavior)
    : FastMCP :=
  MakeFastMCP (TimedCache.init cache_expiration) []
    (MakeToolManager ∅ on_duplicate_tools)
    (MakeResourceManager ∅ ∅ on_duplicate_resources)
    (MakePromptManager ∅ on_duplicate_prompts).

Definition with_cache (s : FastMCP) (c : TimedCache.t (gmap string Item)) : FastMCP :=
  MakeFastMCP c (_mounted_servers s) (_tool_manager s) (_resource_manager s)
    (_prompt_manager s).

Definition with_mounted_servers (s : FastMCP) (ms : Py.odict MountedServer.t) : FastMCP :=
  MakeFastMCP (_cache s) ms (_tool_manager s) (_resource_manager s) (_prompt_manager s).

Definition with_tool_manager (s : FastMCP) (m : ToolManager) : FastMCP :=
  MakeFastMCP (_cache s) (_mounted_servers s) m (_resource_manager s) (_prompt_manager s).

Definition with_resource_manager (s : FastMCP) (m : ResourceManager) : FastMCP :=
  MakeFastMCP (_cache s) (_mounted_servers s) (_tool_manager s) m (_prompt_manager s).

Definition with_prompt_manager (s : FastMCP) (m : PromptManager) : FastMCP :=
  MakeFastMCP (_cache s) (_mounted_servers s) (_tool_manager s) (_resource_manager s) m.

(** A call of [_cache.set] or [_cache.clear], and the server whose cache it
    was called on.  The store records them in the order they happen. *)
Inductive CacheEvent :=
| CacheSet (sid : ServerId) (key : string)
| CacheClear (sid : ServerId).

Record State := MakeState {
  servers : gmap ServerId FastMCP;
  cache_events : list CacheEvent
}.

Definition set_server (sid : ServerId) (s : FastMCP) (st : State) : State :=
  MakeState (<[sid := s]> (servers st)) (cache_events st).

(** [self._cache.set(key, value)] on the server [sid] *)
Definition cache_set (sid : ServerId) (key : string) (value : gmap string Item)
    (now : Time) (st : State) : option State :=
  s ← servers st !! sid;
  Some (MakeState
          (<[sid := with_cache s (TimedCache.set (_cache s) key value now)]> (servers st))
          (cache_events st ++ [CacheSet sid key])).

(** [self._cache.clear()] on the server [sid] *)
Definition cache_clear (sid : ServerId) (st : State) : option State :=
  s ← servers st !! sid;
  Some (MakeState
          (<[sid := with_cache s (TimedCache.clear (_cache s))]> (servers st))
          (cache_events st ++ [CacheClear sid])).

(** ** Listing *)

(** The four listings are the same code on four cache keys, four manager
    getters and three separators. *)
Inductive Category := Tools | Resources | ResourceTemplates | Prompts.

Definition cache_key (cat : Category) : string :=
  match cat with
  | Tools => "tools"
  | Resources => "resources"
  | ResourceTemplates => "resource_templates"
  | Prompts => "prompts"
  end.

Definition separator (cat : Category) (m : MountedServer.t) : string :=
  match cat with
  | Tools => MountedServer.tool_separator m
  | Resources | ResourceTemplates => MountedServer.resource_separator m
  | Prompts => MountedServer.prompt_separator m
  end.

(** [self._tool_manager.get_tools()] and its three siblings *)
Definition local_items (cat : Category) (s : FastMCP) : gmap string Item :=
  match cat with
  | Tools => ToolManager_get_tools (_tool_manager s)
  | Resources => ResourceManager_get_resources (_resource_manager s)
  | ResourceTemplates => ResourceManager_get_templates (_resource_manager s)
  | Prompts => PromptManager_get_prompts (_prompt_manager s)
  end.

(** [{f"{self.prefix}{separator}{key}": item for key, item in items.items()}] *)
Definition prefixed (cat : Category) (m : MountedServer.t)
    (items : gmap string Item) : gmap string Item :=
  kmap (fun key => MountedServer.prefix m +:+ separator cat m +:+ key) items.

(** [MountedServer.get_tools] and its siblings, given the listing method of
    the target. *)
Definition MountedServer_get_items
    (get : ServerId -> State -> option (State * gmap string Item))
    (cat : Category) (self : MountedServer.t) (st : State)
    : option (State * gmap string Item) :=
  '(st, items) ← get (MountedServer.server self) st;
  Some (st, prefixed cat self items).

(** [for server in mounts: items.update(await server.get_...())] *)
Fixpoint update_from_mounts
    (get_from : MountedServer.t -> State -> option (State * gmap string Item))
    (mounts : list MountedServer.t) (st : State) (items : gmap string Item)
    : option (State * gmap string Item) :=
  match mounts with
  | [] => Some (st, items)
  | server :: rest =>
      '(st, server_items) ← get_from server st;
      update_from_mounts get_from rest st (Py.update items server_items)
  end.

(** The body of a listing method after a cache miss. *)
Definition compute_items
    (get : ServerId -> State -> option (State * gmap string Item))
    (cat : Category) (sid : ServerId) (now : Time) (st : State)
    : option (State * gmap string Item) :=
  self ← servers st !! sid;
  '(st, items) ← update_from_mounts (MountedServer_get_items get cat)
                   (Py.od_values (_mounted_servers self)) st ∅;
  self ← servers st !! sid;
  let items := Py.update items (local_items cat self) in
  st ← cache_set sid (cache_key cat) items now st;
  Some (st, items).

(** [FastMCP.get_tools], [get_resources], [get_resource_templates] and
    [get_prompts]. *)
Fixpoint get_items (fuel : nat) (cat : Category) (sid : ServerId) (now : Time)
    (st : State) : option (State * gmap string Item) :=
  match fuel with
  | O => None
  | S fuel' =>
      self ← servers st !! sid;
      match TimedCache.get (_cache self) (cache_key cat) now with
      | TimedCache.Found items => Some (st, items)
      | TimedCache.NOT_FOUND =>
          compute_items (fun target => get_items fuel' cat target now) cat sid now st
      end
  end.

Definition get_tools (fuel : nat) := get_items fuel Tools.
Definition get_resources (fuel : nat) := get_items fuel Resources.
Definition get_resource_templates (fuel : nat) := get_items fuel ResourceTemplates.
Definition get_prompts (fuel : nat) := get_items fuel Prompts.

End Registry.

Section Dispatch.
Context `{Collaborators}.

(** ** Dispatch *)

(** [for server in mounts: if matches(server): <body>; break/return]
    followed by [else: <orelse>]. *)
Fixpoint for_else {R} (matches : MountedServer.t -> bool)
    (body : MountedServer.t -> R) (orelse : R)
    (mounts : list MountedServer.t) : R :=
  match mounts with
  | [] => orelse
  | server :: rest =>
      if matches server then body server
      else for_else matches body orelse rest
  end.

(** [FastMCP.get_context]: the request context when there is one (the
    [LookupError] branch gives [None]) and a reference to this server. *)
Definition get_context (request : option RequestContext) (sid : ServerId)
    : Context RequestContext :=
  MakeContext request sid.

Fixpoint _mcp_call_tool (fuel : nat) (request : option RequestContext)
    (sid : ServerId) (key : string) (arguments : Arguments_) (st : State)
    : option (Outcome Content) :=
  match fuel with
  | O => None
  | S fuel' =>
      self ← servers st !! sid;
      if ToolManager_has_tool (_tool_manager self) key then
        let context := get_context request sid in
        Some (ToolManager_call_tool (_tool_manager self) key arguments context)
      else
        for_else
          (fun server => MountedServer.match_tool server key)
          (fun server =>
             let new_key := MountedServer.strip_tool_prefix server key in
             _mcp_call_tool fuel' request (MountedServer.server server) new_key
               arguments st)
          (Some (Raise (NotFoundError ("Unknown tool: " +:+ key))))
          (Py.od_values (_mounted_servers self))
  end.

Record ReadResourceContents := MakeReadResourceContents {
  content : Content;
  mime_type : string
}.

Fixpoint _mcp_read_resource (fuel : nat) (sid : ServerId) (uri : string)
    (st : State) : option (Outcome (list ReadResourceContents)) :=
  match fuel with
  | O => None
  | S fuel' =>
      self ← servers st !! sid;
      if ResourceManager_has_resource (_resource_manager self) uri then
        match ResourceManager_get_resource (_resource_manager self) uri with
        | Raise e => Some (Raise e)
        | Return resource =>
            match Resource_read resource with
            | Returns content =>
                Some (Return [MakeReadResourceContents content
                                (Resource_mime_type resource)])
            | Raises e =>
                if isinstance_Exception e
                then Some (Raise (ResourceError (exc_str e)))
                else Some (Raise (ItemRaised e))
            end
        end
      else
        for_else
          (fun server => MountedServer.match_resource server uri)
          (fun server =>
             let new_uri := MountedServer.strip_resource_prefix server uri in
             _mcp_read_resource fuel' (MountedServer.server server) new_uri st)
          (Some (Raise (NotFoundError ("Unknown resource: " +:+ uri))))
          (Py.od_values (_mounted_servers self))
  end.

Record GetPromptResult := MakeGetPromptResult { messages : Content }.

Fixpoint _mcp_get_prompt (fuel : nat) (sid : ServerId) (name : string)
    (arguments : option Arguments_) (st : State) : option (Outcome GetPromptResult) :=
  match fuel with
  | O => None
  | S fuel' =>
      self ← servers st !! sid;
      if PromptManager_has_prompt (_prompt_manager self) name then
        match PromptManager_render_prompt (_prompt_manager self) name arguments with
        | Return messages =>
            Some (Return (MakeGetPromptResult (to_jsonable_python messages)))
        | Raise e => Some (Raise e)
        end
      else
        for_else
          (fun server => MountedServer.match_prompt server name)
          (fun server =>
             let new_key := MountedServer.strip_prompt_prefix server name in
             _mcp_get_prompt fuel' (MountedServer.server server) new_key arguments st)
          (Some (Raise (NotFoundError ("Unknown prompt: " +:+ name))))
          (Py.od_values (_mounted_servers self))
  end.

(** ** Mutation and composition

    A method that changes the registry returns the new store and how the
    call ended; a call that raises keeps what it had written before. *)

Definition finished (st : State) : option (State * Outcome unit) := Some (st, Return ()).

Definition add_tool (sid : ServerId) (fn : AnyFunction)
    (name description : option string) (tags : option (list string)) (st : State)
    : option (State * Outcome unit) :=
  self ← servers st !! sid;
  match ToolManager_add_tool_from_fn (_tool_manager self) fn name description tags with
  | Raise e => Some (st, Raise e)
  | Return m =>
      st ← cache_clear sid (set_server sid (with_tool_manager self m) st);
      finished st
  end.

Definition add_resource (sid : ServerId) (resource : Item) (key : option string)
    (st : State) : option (State * Outcome unit) :=
  self ← servers st !! sid;
  match ResourceManager_add_resource (_resource_manager self) resource key with
  | Raise e => Some (st, Raise e)
  | Return m =>
      st ← cache_clear sid (set_server sid (with_resource_manager self m) st);
      finished st
  end.

Definition add_resource_fn (sid : ServerId) (fn : AnyFunction) (uri : string)
    (name description mime_type : option string) (tags : option (list string))
    (st : State) : option (State * Outcome unit) :=
  self ← servers st !! sid;
  match ResourceManager_add_resource_or_template_from_fn (_resource_manager self)
          fn uri name description mime_type tags with
  | Raise e => Some (st, Raise e)
  | Return m =>
      st ← cache_clear sid (set_server sid (with_resource_manager self m) st);
      finished st
  end.

Definition add_prompt (sid : ServerId) (fn : AnyFunction)
    (name description : option string) (tags : option (list string)) (st : State)
    : option (State * Outcome unit) :=
  self ← servers st !! sid;
  match PromptManager_add_prompt_from_fn (_prompt_manager self) fn name description tags with
  | Raise e => Some (st, Raise e)
  | Return m =>
      st ← cache_clear sid (set_server sid (with_prompt_manager self m) st);
      finished st
  end.

Definition mount (sid : ServerId) (prefix : string) (server : ServerId)
    (tool_separator resource_separator prompt_separator : option string)
    (st : State) : option (State * Outcome unit) :=
  self ← servers st !! sid;
  let mounted_server :=
    MountedServer.init prefix server tool_separator resource_separator
      prompt_separator in
  let mounts := Py.od_set prefix mounted_server (_mounted_servers self) in
  st ← cache_clear sid (set_server sid (with_mounted_servers self mounts) st);
  finished st.

Definition unmount (sid : ServerId) (prefix : string) (st : State)
    : option (State * Outcome unit) :=
  self ← servers st !! sid;
  match Py.od_pop prefix (_mounted_servers self) with
  | None => Some (st, Raise (KeyError prefix))
  | Some (_, mounts) =>
      st ← cache_clear sid (set_server sid (with_mounted_servers self mounts) st);
      finished st
  end.

(** [self._tool_manager.add_tool(tool, key=...)] and the three sibling
    calls of [import_server], as one function of the category. *)
Definition manager_add (cat : Category) (self : FastMCP) (item : Item)
    (key : string) : Outcome FastMCP :=
  match cat with
  | Tools =>
      match ToolManager_add_tool (_tool_manager self) item (Some key) with
      | Return m => Return (with_tool_manager self m)
      | Raise e => Raise e
      end
  | Resources =>
      match ResourceManager_add_resource (_resource_manager self) item (Some key) with
      | Return m => Return (with_resource_manager self m)
      | Raise e => Raise e
      end
  | ResourceTemplates =>
      match ResourceManager_add_template (_resource_manager self) item (Some key) with
      | Return m => Return (with_resource_manager self m)
      | Raise e => Raise e
      end
  | Prompts =>
      match PromptManager_add_prompt (_prompt_manager self) item (Some key) with
      | Return m => Return (with_prompt_manager self m)
      | Raise e => Raise e
      end
  end.

(** [for key, item in entries: manager.add(item, key=f"{key_prefix}{key}")] *)
Fixpoint add_each (cat : Category) (key_prefix : string)
    (entries : list (string * Item)) (self : FastMCP) : FastMCP * Outcome unit :=
  match entries with
  | [] => (self, Return ())
  | (key, item) :: rest =>
      match manager_add cat self item (key_prefix +:+ key) with
      | Return self' => add_each cat key_prefix rest self'
      | Raise e => (self, Raise e)
      end
  end.

(** One of the four loops of [import_server]: list the category on the
    source, then add every entry to the local manager. *)
Definition import_items (fuel : nat) (cat : Category) (sid server : ServerId)
    (key_prefix : string) (now : Time) (st : State) : option (State * Outcome unit) :=
  '(st, items) ← get_items fuel cat server now st;
  self ← servers st !! sid;
  let '(self, r) := add_each cat key_prefix (map_to_list items) self in
  Some (set_server sid self st, r).

(** Run [k] after a step that returned; a [raise] ends the method. *)
Definition and_then (m : option (State * Outcome unit))
    (k : State -> option (State * Outcome unit)) : option (State * Outcome unit) :=
  match m with
  | Some (st, Return _) => k st
  | Some (st, Raise e) => Some (st, Raise e)
  | None => None
  end.

Definition import_server (fuel : nat) (sid : ServerId) (prefix : string)
    (server : ServerId)
    (tool_separator resource_separator prompt_separator : option string)
    (now : Time) (st : State) : option (State * Outcome unit) :=
  let tool_separator := Py.or_default tool_separator "_" in
  let resource_separator := Py.or_default resource_separator "+" in
  let prompt_separator := Py.or_default prompt_separator "_" in
  let tool_prefix := prefix +:+ tool_separator in
  let resource_prefix := prefix +:+ resource_separator in
  let prompt_prefix := prefix +:+ prompt_separator in
  and_then (import_items fuel Tools sid server tool_prefix now st) (fun st =>
  and_then (import_items fuel Resources sid server resource_prefix now st) (fun st =>
  and_then (import_items fuel ResourceTemplates sid server resource_prefix now st) (fun st =>
  and_then (import_items fuel Prompts sid server prompt_prefix now st) (fun st =>
  st ← cache_clear sid st;
  finished st)))).

(** The mutating calls of the public interface, as data, so that a
    property can speak of "any mutation". *)
Inductive Mutation :=
| AddTool (fn : AnyFunction) (name description : option string)
    (tags : option (list string))
| AddResource (resource : Item) (key : option string)
| AddResourceFn (fn : AnyFunction) (uri : string)
    (name description mime_type : option string) (tags : option (list string))
| AddPrompt (fn : AnyFunction) (name description : option string)
    (tags : option (list string))
| Mount (prefix : string) (server : ServerId)
    (tool_separator resource_separator prompt_separator : option string)
| Unmount (prefix : string)
| ImportServer (fuel : nat) (prefix : string) (server : ServerId)
    (tool_separator resource_separator prompt_separator : option string)
    (now : Time).

Definition mutate (m : Mutation) (sid : ServerId) (st : State)
    : option (State * Outcome unit) :=
  match m with
  | AddTool fn name description tags => add_tool sid fn name description tags st
  | AddResource resource key => add_resource sid resource key st
  | AddResourceFn fn uri name description mime_type tags =>
      add_resource_fn sid fn uri name description mime_type tags st
  | AddPrompt fn name description tags => add_prompt sid fn name description tags st
  | Mount prefix server ts rs ps => mount sid prefix server ts rs ps st
  | Unmount prefix => unmount sid prefix st
  | ImportServer fuel prefix server ts rs ps now =>
      import_server fuel sid prefix server ts rs ps now st
  end.

End Dispatch.

(** ** The list handlers *)

Section Handlers.
Context `{Collaborators}.
Context {Descriptor : Type}.

(** [_mcp_list_tools] and its three siblings: the listing of the category,
    each item serialized with the key it is listed under
    ([tool.to_mcp_tool(name=key)], [resource.to_mcp_resource(uri=key)],
    [template.to_mcp_template(uriTemplate=key)],
    [prompt.to_mcp_prompt(name=key)]); [to_mcp] is that method of the item
    class.  The descriptors come in the order of the finite map, which is
    not the order of the Python dictionary. *)
Definition _mcp_list_items (to_mcp : Item -> string -> Descriptor)
    (fuel : nat) (cat : Category) (sid : ServerId) (now : Time) (st : State)
    : option (State * list Descriptor) :=
  '(st, items) ← get_items fuel cat sid now st;
  Some (st, (fun entry => to_mcp entry.2 entry.1) <$> map_to_list items).

Definition _mcp_list_tools (to_mcp_tool : Item -> string -> Descriptor)
    (fuel : nat) := _mcp_list_items to_mcp_tool fuel Tools.
Definition _mcp_list_resources (to_mcp_resource : Item -> string -> Descriptor)
    (fuel : nat) := _mcp_list_items to_mcp_resource fuel Resources.
Definition _mcp_list_resource_templates
    (to_mcp_template : Item -> string -> Descriptor)
    (fuel : nat) := _mcp_list_items to_mcp_template fuel ResourceTemplates.
Definition _mcp_list_prompts (to_mcp_prompt : Item -> string -> Descriptor)
    (fuel : nat) := _mcp_list_items to_mcp_prompt fuel Prompts.

End Handlers.

(** ** Vocabulary of the properties *)

Section Vocabulary.
Context `{Collaborators}.

(** What a registry does with a resource of its own. *)
Definition read_local (resource : Item) : Outcome (list ReadResourceContents) :=
  match Resource_read resource with
  | Returns content =>
      Return [MakeReadResourceContents content (Resource_mime_type resource)]
  | Raises e =>
      if isinstance_Exception e then Raise (ResourceError (exc_str e))
      else Raise (ItemRaised e)
  end.

(** What a registry does with a prompt of its own. *)
Definition render_local (prompt : Item) (arguments : option Arguments_)
    : Outcome GetPromptResult :=
  match Prompt_render prompt arguments with
  | Returns messages => Return (MakeGetPromptResult (to_jsonable_python messages))
  | Raises e => Raise (ItemRaised e)
  end.

(** The registry proper of a server: everything but the contents of its
    cache. *)
Definition registry_of (s : FastMCP) :=
  (_mounted_servers s, _tool_manager s, _resource_manager s, _prompt_manager s,
   TimedCache.expiration (_cache s)).

Definition same_registries (st st' : State) : Prop :=
  forall i, registry_of <$> (servers st' !! i) = registry_of <$> (servers st !! i).


(** Every listing in the cache of [sid], expired or not, gives the local
    items of [sid] under their own keys. *)
Definition cache_agrees_with_local (st : State) (sid : ServerId) : Prop :=
  forall self cat items expires,
    servers st !! sid = Some self ->
    TimedCache.cache (_cache self) !! cache_key cat = Some (items, expires) ->
    local_items cat self ⊆ items.

Definition is_cache_clear (ev : CacheEvent) : bool :=
  match ev with
  | CacheClear _ => true
  | CacheSet _ _ => false
  end.

(** What a listing call may do to the store: fill caches. *)
Record listing_step (st st' : State) : Prop := MakeListingStep {
  step_registries : same_registries st st';
  step_agrees :
    forall i, cache_agrees_with_local st i -> cache_agrees_with_local st' i;
  step_events :
    exists sets, cache_events st' = cache_events st ++ sets
                 /\ Forall (fun ev => is_cache_clear ev = false) sets
}.

(** Any number of listing calls, on any servers, at any times. *)
Inductive reads : State -> State -> Prop :=
| reads_done st : reads st st
| reads_more st st' st'' fuel cat sid now items :
    get_items fuel cat sid now st = Some (st', items) ->
    reads st' st'' ->
    reads st st''.


Definition is_import (m : Mutation) : bool :=
  match m with
  | ImportServer _ _ _ _ _ _ _ => true
  | _ => false
  end.


(** [b] can be reached from [a] by following mounts. *)
Inductive reachable (st : State) (a : ServerId) : ServerId -> Prop :=
| reachable_self : reachable st a a
| reachable_mount i s m :
    reachable st a i ->
    servers st !! i = Some s ->
    m ∈ Py.od_values (_mounted_servers s) ->
    reachable st a (MountedServer.server m).

(** The key prefix [import_server] uses for a category. *)
Definition import_prefix (cat : Category) (prefix : string)
    (tool_separator resource_separator prompt_separator : option string) : string :=
  match cat with
  | Tools => prefix +:+ Py.or_default tool_separator "_"
  | Resources | ResourceTemplates => prefix +:+ Py.or_default resource_separator "+"
  | Prompts => prefix +:+ Py.or_default prompt_separator "_"
  end.

(** The local registry of a category on server [sid], if [sid] exists. *)
Definition local_at (cat : Category) (sid : ServerId) (st : State)
    : option (gmap string Item) :=
  local_items cat <$> (servers st !! sid).

(** What the store may have gone through while [sid] was importing: caches
    were filled and leaf registries of [sid] were written; no mount
    dictionary changed and no other registry did. *)
Record import_progress (sid : ServerId) (st st' : State) : Prop := MakeImportProgress {
  progress_others :
    forall i, i <> sid ->
      registry_of <$> (servers st' !! i) = registry_of <$> (servers st !! i);
  progress_mounts :
    forall i, _mounted_servers <$> (servers st' !! i)
              = _mounted_servers <$> (servers st !! i);
  progress_agrees :
    forall i, i <> sid ->
      cache_agrees_with_local st i -> cache_agrees_with_local st' i;
  progress_events :
    exists sets, cache_events st' = cache_events st ++ sets
                 /\ Forall (fun ev => is_cache_clear ev = false) sets
}.


(** What a listing of one category reads of a server: its mounts, its
    local registry of the category, the expiration of its cache and the
    entry of the category in its cache. *)
Definition listing_view (cat : Category) (s : FastMCP) :=
  (_mounted_servers s, local_items cat s, TimedCache.expiration (_cache s),
   TimedCache.cache (_cache s) !! cache_key cat).

Definition same_view (cat : Category) (st st' : State) : Prop :=
  forall i, listing_view cat <$> (servers st' !! i)
            = listing_view cat <$> (servers st !! i).






(** The store after any number of listing calls, of mutations that ran to
    their end, and of mutations other than imports that raised. *)
Inductive run : State -> State -> Prop :=
| run_done st : run st st
| run_listing st st' st'' fuel cat sid now items :
    get_items fuel cat sid now st = Some (st', items) ->
    run st' st'' -> run st st''
| run_mutation st st' st'' m sid :
    mutate m sid st = Some (st', Return ()) ->
    run st' st'' -> run st st''
| run_refused st st' st'' m sid e :
    is_import m = false ->
    mutate m sid st = Some (st', Raise e) ->
    run st' st'' -> run st st''.


(** Every mount of the store points at a server of the store. *)
Definition closed_store (st : State) : Prop :=
  forall i s m,
    servers st !! i = Some s -> m ∈ Py.od_values (_mounted_servers s) ->
    is_Some (servers st !! MountedServer.server m).

(** No binding of the store has an empty prefix followed by an empty
    separator, for the separator [sep] of a kind of key. *)
Definition prefixes_nonempty (sep : MountedServer.t -> string) (st : State) : Prop :=
  forall i s m,
    servers st !! i = Some s -> m ∈ Py.od_values (_mounted_servers s) ->
    MountedServer.prefix m +:+ sep m <> "".

(** Every server of [C] misses its cache for the category at time [now] and
    mounts a server of [C]: from any of them, mounts lead around [C] for
    ever. *)
Definition stuck_cycle (C : ServerId -> Prop) (cat : Category) (now : Time)
    (st : State) : Prop :=
  forall c, C c ->
    exists self,
      servers st !! c = Some self
      /\ TimedCache.get (_cache self) (cache_key cat) now = TimedCache.NOT_FOUND
      /\ exists m, m ∈ Py.od_values (_mounted_servers self)
                   /\ C (MountedServer.server m).

End Vocabulary.

(** ** A small world to run the code on

    Items are labels, a tool returns its label, and the resource labelled
    "broken" raises from its [read].  Server 0 has a local tool "add" and
    mounts server 1 under "calc"; server 1 has a tool "add", two resources
    and a prompt. *)

Module Demo.

Definition disk_error : BaseException :=
  {| isinstance_Exception := true; exc_str := "disk on fire" |}.

#[local] Instance collaborators : Collaborators := {|
  Item := string;
  AnyFunction := string;
  Arguments_ := list string;
  Content := string;
  RequestContext := unit;
  Item_key := fun item => item;
  Tool_run := fun item _ _ => Returns item;
  Resource_read := fun item =>
    if decide (item = "broken") then Raises disk_error else Returns item;
  Resource_mime_type := fun _ => "text/plain";
  Prompt_render := fun item _ => Returns item;
  to_jsonable_python := fun messages => messages;
  Tool_from_function := fun fn name _ _ => Py.or_default name fn;
  Prompt_from_function := fun fn name _ _ => Py.or_default name fn;
  Resource_from_function := fun fn _ _ _ _ _ => fn;
  is_template := fun _ _ => false
|}.

Definition child : FastMCP :=
  MakeFastMCP (TimedCache.init 60) []
    (MakeToolManager {[ "add" := "child.add" ]} warn)
    (MakeResourceManager
       {[ "weather://forecast" := "forecast"; "file://bad" := "broken" ]} ∅ warn)
    (MakePromptManager {[ "greet" := "child.greet" ]} warn).

Definition parent : FastMCP :=
  MakeFastMCP (TimedCache.init 60)
    [("calc", MountedServer.init "calc" 1 None None None)]
    (MakeToolManager {[ "add" := "parent.add" ]} warn)
    (MakeResourceManager ∅ ∅ warn)
    (MakePromptManager ∅ warn).

Definition world : State := MakeState {[ 0 := parent; 1 := child ]} [].

(** The binding of server 0. *)
Definition calc : MountedServer.t := MountedServer.init "calc" 1 None None None.



Definition state_after {A} (r : option (State * A)) : State :=
  match r with
  | Some (st, _) => st
  | None => MakeState ∅ []
  end.

(** Registering a tool "sub". *)
Definition add_sub : Mutation := AddTool "sub" None None None.

(** Server 0 lists its tools at time 0; then server 1 gets the tool. *)
Definition parent_listed : State :=
  Eval vm_compute in state_after (get_tools 2 0 0%Z world).

Definition child_grown : State :=
  Eval vm_compute in state_after (mutate add_sub 1 parent_listed).

(** Server 0 imports server 1 under "ext". *)
Definition imported : State :=
  Eval vm_compute in
    state_after (import_server 2 0 "ext" 1 None None None 0%Z world).



(** Server 2 rejects duplicates and has a prompt of its own under a key
    that importing server 1 under "ext" produces.  It lists its tools at
    time 0, then imports server 1 at time 1. *)
Definition strict : FastMCP :=
  MakeFastMCP (TimedCache.init 60) []
    (MakeToolManager ∅ reject)
    (MakeResourceManager ∅ ∅ reject)
    (MakePromptManager {[ "ext_greet" := "own.greet" ]} reject).

Definition strict_world : State := MakeState {[ 1 := child; 2 := strict ]} [].

Definition strict_listed : State :=
  Eval vm_compute in state_after (get_tools 1 2 0%Z strict_world).

Definition strict_aborted : State :=
  Eval vm_compute in
    state_after (import_server 2 2 "ext" 1 None None None 1%Z strict_listed).

(** Server 3 has a tool "add" and a prompt "greet". *)
Definition other : FastMCP :=
  MakeFastMCP (TimedCache.init 60) []
    (MakeToolManager {[ "add" := "other.add" ]} warn)
    (MakeResourceManager ∅ ∅ warn)
    (MakePromptManager {[ "greet" := "other.greet" ]} warn).





(** Server 0 mounts itself under "me". *)
Definition self_mounted : State :=
  Eval vm_compute in state_after (mount 0 "me" 0 None None None world).

(** Server 3 mounts itself with an empty prefix and empty separators. *)
Definition transparent : FastMCP :=
  MakeFastMCP (TimedCache.init 60)
    [("", MountedServer.init "" 3 (Some "") (Some "") (Some ""))]
    (MakeToolManager ∅ warn)
    (MakeResourceManager ∅ ∅ warn)
    (MakePromptManager ∅ warn).

Definition transparent_world : State := MakeState {[ 3 := transparent ]} [].

End Demo.

(** * Properties *)

(** ** Prefixes of strings *)

Section Strings.
Implicit Types (s p k key rest : string) (c : Ascii.ascii).

Lemma append_cons c p s : String c p +:+ s = String c (p +:+ s).
Proof. reflexivity. Qed.

Lemma app_assoc_string p s k : (p +:+ s) +:+ k = p +:+ (s +:+ k).
Proof.
  induction p as [|c p IH]; [done |].
  by rewrite !append_cons, IH.
Qed.

Lemma startswith_app p k : Py.startswith (p +:+ k) p = true.
Proof.
  induction p as [|c p IH]; [done |].
  rewrite append_cons; simpl. by rewrite Ascii.eqb_refl.
Qed.

Lemma startswith_split key p :
  Py.startswith key p = true -> exists rest, key = p +:+ rest.
Proof.
  revert key. induction p as [|c p IH]; intros key Hs.
  - by exists key.
  - destruct key as [|d key]; [done |]. simpl in Hs.
    destruct (Ascii.eqb c d) eqn:Hcd; [| done].
    apply Ascii.eqb_eq in Hcd as ->.
    destruct (IH _ Hs) as [rest ->]. by exists rest.
Qed.

Lemma startswith_iff key p :
  Py.startswith key p = true <-> exists rest, key = p +:+ rest.
Proof.
  split; [apply startswith_split |].
  intros [rest ->]. apply startswith_app.
Qed.

Lemma slice_from_app p k : Py.slice_from (String.length p) (p +:+ k) = k.
Proof.
  induction p as [|c p IH]; [done |].
  by rewrite append_cons.
Qed.

Lemma removeprefix_app p k : Py.removeprefix (p +:+ k) p = k.
Proof.
  unfold Py.removeprefix. by rewrite startswith_app, slice_from_app.
Qed.

Lemma removeprefix_no_match key p :
  Py.startswith key p = false -> Py.removeprefix key p = key.
Proof. unfold Py.removeprefix. by intros ->. Qed.

#[global] Instance append_inj p : Inj (=) (=) (String.append p).
Proof.
  intros k1 k2. induction p as [|c p IH]; [done |].
  rewrite !append_cons. intros [= Heq]. by apply IH.
Qed.

#[global] Instance append2_inj p s : Inj (=) (=) (fun key => p +:+ s +:+ key).
Proof. intros k1 k2 Heq. by do 2 apply (inj (String.append _)) in Heq. Qed.

End Strings.

(** ** MountedServer: match and strip *)

(** C5 (prefix round trip).  For a binding with prefix [p] and, for each of
    tools, resources and prompts, separator [s]: stripping [p+s+k] gives
    [k], [p+s+k] matches, and a key that does not start with [p+s] (is not
    [p+s+rest] for any [rest]) does not match. *)
Theorem prefix_round_trip (m : MountedServer.t) (k : string) :
  let p := MountedServer.prefix m in
  (MountedServer.strip_tool_prefix m (p +:+ MountedServer.tool_separator m +:+ k) = k
   /\ MountedServer.match_tool m (p +:+ MountedServer.tool_separator m +:+ k) = true
   /\ forall key, ~ (exists rest, key = p +:+ MountedServer.tool_separator m +:+ rest) ->
        MountedServer.match_tool m key = false)
  /\ (MountedServer.strip_resource_prefix m
        (p +:+ MountedServer.resource_separator m +:+ k) = k
      /\ MountedServer.match_resource m
           (p +:+ MountedServer.resource_separator m +:+ k) = true
      /\ forall key,
           ~ (exists rest, key = p +:+ MountedServer.resource_separator m +:+ rest) ->
           MountedServer.match_resource m key = false)
  /\ (MountedServer.strip_prompt_prefix m
        (p +:+ MountedServer.prompt_separator m +:+ k) = k
      /\ MountedServer.match_prompt m
           (p +:+ MountedServer.prompt_separator m +:+ k) = true
      /\ forall key,
           ~ (exists rest, key = p +:+ MountedServer.prompt_separator m +:+ rest) ->
           MountedServer.match_prompt m key = false).
Proof.
  intros p.
  assert (Hgen : forall sep,
    Py.removeprefix (p +:+ sep +:+ k) (p +:+ sep) = k
    /\ Py.startswith (p +:+ sep +:+ k) (p +:+ sep) = true
    /\ forall key, ~ (exists rest, key = p +:+ sep +:+ rest) ->
         Py.startswith key (p +:+ sep) = false).
  { intros sep. rewrite <- (app_assoc_string p sep k). split; [apply removeprefix_app |].
    split; [apply startswith_app |].
    intros key Hno. destruct (Py.startswith key (p +:+ sep)) eqn:Hs; [| done].
    exfalso. apply Hno. apply startswith_split in Hs as [rest ->].
    exists rest. apply app_assoc_string. }
  split; [| split]; apply Hgen.
Qed.

(** C10 (strip is total and is the identity off the match).  For each of
    the three strip functions: on a key the binding does not match, the
    function returns the key unchanged. *)
Theorem strip_unmatched_is_identity (m : MountedServer.t) (key : string) :
  (MountedServer.match_tool m key = false ->
     MountedServer.strip_tool_prefix m key = key)
  /\ (MountedServer.match_resource m key = false ->
        MountedServer.strip_resource_prefix m key = key)
  /\ (MountedServer.match_prompt m key = false ->
        MountedServer.strip_prompt_prefix m key = key).
Proof.
  split; [| split]; apply removeprefix_no_match.
Qed.

(** ** TimedCache *)

Section Cache.
Context {V : Type}.
Implicit Types (c : TimedCache.t V) (key : string) (v : V).

Lemma get_after_set c key v stored now :
  TimedCache.get (TimedCache.set c key v stored) key now =
  if bool_decide (now - stored < TimedCache.expiration c)%Z
  then TimedCache.Found v else TimedCache.NOT_FOUND.
Proof.
  unfold TimedCache.get, TimedCache.set; simpl.
  rewrite lookup_insert_eq; simpl.
  repeat case_bool_decide; try done; lia.
Qed.

(** C7 (expiring read).  After [set(key, v)] at time [stored], a [get(key)]
    at time [now] returns [v] exactly when the store happened less than the
    expiration ago, and the sentinel otherwise, although the entry is still
    in the dictionary; the sentinel is not a stored value, whatever that
    value is ([None] included); reads do not change the cache, so all reads
    before the expiry return the same value. *)
Theorem get_returns_stored_value_until_expiry c key v (stored now : Time) :
  let c' := TimedCache.set c key v stored in
  (TimedCache.get c' key now = TimedCache.Found v
     <-> (now - stored < TimedCache.expiration c)%Z)
  /\ (~ (now - stored < TimedCache.expiration c)%Z ->
        TimedCache.get c' key now = TimedCache.NOT_FOUND
        /\ is_Some (TimedCache.cache c' !! key))
  /\ (forall now', (now - stored < TimedCache.expiration c)%Z ->
        (now' - stored < TimedCache.expiration c)%Z ->
        TimedCache.get c' key now' = TimedCache.get c' key now)
  /\ (forall w : V, TimedCache.Found w <> TimedCache.NOT_FOUND).
Proof.
  intros c'. unfold c'. repeat split.
  - rewrite get_after_set. case_bool_decide; [done | discriminate].
  - intros Hlt. rewrite get_after_set. by rewrite bool_decide_eq_true_2.
  - rewrite get_after_set. by rewrite bool_decide_eq_false_2.
  - simpl. rewrite lookup_insert_eq. eauto.
  - intros now' H1 H2. rewrite !get_after_set.
    by rewrite !bool_decide_eq_true_2.
  - discriminate.
Qed.

End Cache.

(** ** Insertion-ordered dictionaries *)

Section Odict.
Context {V : Type}.
Implicit Types (d : Py.odict V) (k : string) (v : V).

Lemma od_get_remove_eq k d : Py.od_get k (Py.od_remove k d) = None.
Proof.
  induction d as [|[k' v] d IH]; [done |].
  unfold Py.od_remove in *. rewrite filter_cons; simpl.
  destruct (decide (k' <> k)) as [Hne|Heq]; [| done].
  simpl. by rewrite decide_False.
Qed.

Lemma od_get_remove_ne k k' d :
  k' <> k -> Py.od_get k' (Py.od_remove k d) = Py.od_get k' d.
Proof.
  intros Hne. induction d as [|[k0 v] d IH]; [done |].
  unfold Py.od_remove in *. rewrite filter_cons; simpl.
  destruct (decide (k0 <> k)) as [H0|H0]; simpl.
  - by rewrite IH.
  - apply dec_stable in H0 as ->. by rewrite decide_False.
Qed.

Lemma od_get_set_eq k v d : Py.od_get k (Py.od_set k v d) = Some v.
Proof.
  induction d as [|[k' v'] d IH]; simpl; [by rewrite decide_True |].
  destruct (decide (k' = k)) as [->|Hne]; simpl.
  - by rewrite decide_True.
  - by rewrite decide_False.
Qed.

Lemma od_get_set_ne k k' v d :
  k' <> k -> Py.od_get k' (Py.od_set k v d) = Py.od_get k' d.
Proof.
  intros Hne. induction d as [|[k0 v0] d IH]; simpl; [by rewrite decide_False |].
  destruct (decide (k0 = k)) as [->|H0]; simpl.
  - by rewrite !decide_False.
  - by rewrite IH.
Qed.



End Odict.

(** ** The store *)

Section Store.
Context `{Collaborators}.

Lemma cache_clear_set_server sid s st :
  cache_clear sid (set_server sid s st) =
  Some (MakeState (<[sid := with_cache s (TimedCache.clear (_cache s))]> (servers st))
          (cache_events st ++ [CacheClear sid])).
Proof.
  unfold cache_clear, set_server; simpl.
  rewrite lookup_insert_eq; simpl. by rewrite insert_insert_eq.
Qed.

End Store.

(** ** Dispatch *)

Section DispatchProperties.
Context `{Collaborators}.

Lemma for_else_first_match {R} (matches : MountedServer.t -> bool)
    (body : MountedServer.t -> R) (orelse : R) before m after :
  Forall (fun m' => matches m' = false) before ->
  matches m = true ->
  for_else matches body orelse (before ++ m :: after) = body m.
Proof.
  induction 1 as [|m' before Hm' _ IH]; intros Hm; simpl.
  - by rewrite Hm.
  - rewrite Hm'. by apply IH.
Qed.

Lemma for_else_no_match {R} (matches : MountedServer.t -> bool)
    (body : MountedServer.t -> R) (orelse : R) mounts :
  Forall (fun m => matches m = false) mounts ->
  for_else matches body orelse mounts = orelse.
Proof.
  induction 1 as [|m mounts Hm _ IH]; simpl; [done |].
  by rewrite Hm.
Qed.

Lemma call_tool_local fuel request sid self key arguments st tool :
  servers st !! sid = Some self ->
  _tools (_tool_manager self) !! key = Some tool ->
  _mcp_call_tool (S fuel) request sid key arguments st =
  Some (item_outcome (Tool_run tool arguments (MakeContext request sid))).
Proof.
  intros Hs Ht. simpl. rewrite Hs; simpl.
  unfold ToolManager_has_tool, ToolManager_call_tool. rewrite Ht.
  by rewrite bool_decide_eq_true_2.
Qed.

Lemma call_tool_mounts fuel request sid self key arguments st :
  servers st !! sid = Some self ->
  _tools (_tool_manager self) !! key = None ->
  _mcp_call_tool (S fuel) request sid key arguments st =
  for_else (fun server => MountedServer.match_tool server key)
    (fun server =>
       _mcp_call_tool fuel request (MountedServer.server server)
         (MountedServer.strip_tool_prefix server key) arguments st)
    (Some (Raise (NotFoundError ("Unknown tool: " +:+ key))))
    (Py.od_values (_mounted_servers self)).
Proof.
  intros Hs Ht. simpl. rewrite Hs; simpl.
  unfold ToolManager_has_tool. rewrite Ht.
  rewrite bool_decide_eq_false_2; [done |]. by intros [? ?].
Qed.

Lemma read_resource_local fuel sid self uri st resource :
  servers st !! sid = Some self ->
  _resources (_resource_manager self) !! uri = Some resource ->
  _mcp_read_resource (S fuel) sid uri st = Some (read_local resource).
Proof.
  intros Hs Hr. simpl. rewrite Hs; simpl.
  unfold ResourceManager_has_resource, ResourceManager_get_resource, read_local.
  rewrite Hr. rewrite bool_decide_eq_true_2 by eauto.
  destruct (Resource_read resource) as [c|e]; [done |].
  by destruct (isinstance_Exception e).
Qed.

Lemma read_resource_mounts fuel sid self uri st :
  servers st !! sid = Some self ->
  _resources (_resource_manager self) !! uri = None ->
  _mcp_read_resource (S fuel) sid uri st =
  for_else (fun server => MountedServer.match_resource server uri)
    (fun server =>
       _mcp_read_resource fuel (MountedServer.server server)
         (MountedServer.strip_resource_prefix server uri) st)
    (Some (Raise (NotFoundError ("Unknown resource: " +:+ uri))))
    (Py.od_values (_mounted_servers self)).
Proof.
  intros Hs Hr. simpl. rewrite Hs; simpl.
  unfold ResourceManager_has_resource. rewrite Hr.
  rewrite bool_decide_eq_false_2; [done |]. by intros [? ?].
Qed.

Lemma get_prompt_local fuel sid self name arguments st prompt :
  servers st !! sid = Some self ->
  _prompts (_prompt_manager self) !! name = Some prompt ->
  _mcp_get_prompt (S fuel) sid name arguments st =
  Some (render_local prompt arguments).
Proof.
  intros Hs Hp. simpl. rewrite Hs; simpl.
  unfold PromptManager_has_prompt, PromptManager_render_prompt, render_local.
  rewrite Hp. rewrite bool_decide_eq_true_2 by eauto.
  by destruct (Prompt_render prompt arguments).
Qed.

Lemma get_prompt_mounts fuel sid self name arguments st :
  servers st !! sid = Some self ->
  _prompts (_prompt_manager self) !! name = None ->
  _mcp_get_prompt (S fuel) sid name arguments st =
  for_else (fun server => MountedServer.match_prompt server name)
    (fun server =>
       _mcp_get_prompt fuel (MountedServer.server server)
         (MountedServer.strip_prompt_prefix server name) arguments st)
    (Some (Raise (NotFoundError ("Unknown prompt: " +:+ name))))
    (Py.od_values (_mounted_servers self)).
Proof.
  intros Hs Hp. simpl. rewrite Hs; simpl.
  unfold PromptManager_has_prompt. rewrite Hp.
  rewrite bool_decide_eq_false_2; [done |]. by intros [? ?].
Qed.

End DispatchProperties.

Section DispatchClaims.
Context `{Collaborators}.

(** C1 (dispatch resolution).  Dispatching a tool key on a registry invokes
    the local tool when the local tool manager holds the key; otherwise the
    mount bindings are tried in the order of the mount dictionary and, at
    the first one whose tool match holds, the call is the dispatch entry
    point of the target on the stripped key.  Reading a resource and getting
    a prompt resolve in the same way. *)
Theorem dispatch_local_first_then_mounts fuel request sid self st :
  servers st !! sid = Some self ->
  (forall key arguments,
     (forall tool, _tools (_tool_manager self) !! key = Some tool ->
        _mcp_call_tool (S fuel) request sid key arguments st =
        Some (item_outcome (Tool_run tool arguments (MakeContext request sid))))
     /\ (forall before m after,
           _tools (_tool_manager self) !! key = None ->
           Py.od_values (_mounted_servers self) = before ++ m :: after ->
           Forall (fun m' => MountedServer.match_tool m' key = false) before ->
           MountedServer.match_tool m key = true ->
           _mcp_call_tool (S fuel) request sid key arguments st =
           _mcp_call_tool fuel request (MountedServer.server m)
             (MountedServer.strip_tool_prefix m key) arguments st))
  /\ (forall uri,
        (forall resource, _resources (_resource_manager self) !! uri = Some resource ->
           _mcp_read_resource (S fuel) sid uri st = Some (read_local resource))
        /\ (forall before m after,
              _resources (_resource_manager self) !! uri = None ->
              Py.od_values (_mounted_servers self) = before ++ m :: after ->
              Forall (fun m' => MountedServer.match_resource m' uri = false) before ->
              MountedServer.match_resource m uri = true ->
              _mcp_read_resource (S fuel) sid uri st =
              _mcp_read_resource fuel (MountedServer.server m)
                (MountedServer.strip_resource_prefix m uri) st))
  /\ (forall name arguments,
        (forall prompt, _prompts (_prompt_manager self) !! name = Some prompt ->
           _mcp_get_prompt (S fuel) sid name arguments st =
           Some (render_local prompt arguments))
        /\ (forall before m after,
              _prompts (_prompt_manager self) !! name = None ->
              Py.od_values (_mounted_servers self) = before ++ m :: after ->
              Forall (fun m' => MountedServer.match_prompt m' name = false) before ->
              MountedServer.match_prompt m name = true ->
              _mcp_get_prompt (S fuel) sid name arguments st =
              _mcp_get_prompt fuel (MountedServer.server m)
                (MountedServer.strip_prompt_prefix m name) arguments st)).
Proof.
  intros Hs. split; [| split].
  - intros key arguments. split.
    + intros tool Ht. by eapply call_tool_local.
    + intros before m after Hnone Hmounts Hbefore Hm.
      erewrite call_tool_mounts by done. rewrite Hmounts.
      by rewrite for_else_first_match.
  - intros uri. split.
    + intros resource Hr. by eapply read_resource_local.
    + intros before m after Hnone Hmounts Hbefore Hm.
      erewrite read_resource_mounts by done. rewrite Hmounts.
      by rewrite for_else_first_match.
  - intros name arguments. split.
    + intros prompt Hp. by eapply get_prompt_local.
    + intros before m after Hnone Hmounts Hbefore Hm.
      erewrite get_prompt_mounts by done. rewrite Hmounts.
      by rewrite for_else_first_match.
Qed.

(** C6, as the code has it (not-found names the key of the registry that
    failed).  When the key is absent locally and no mount binding matches
    it, the dispatch raises a not-found error carrying the key exactly as
    this call received it, for tools, resources and prompts.  When the first
    matching binding leads to a target that has no such local entry and no
    matching binding either, the error is the target's: it carries the key
    as stripped. *)
Theorem not_found_names_key_of_failing_registry fuel request sid self st :
  servers st !! sid = Some self ->
  (forall key arguments,
     _tools (_tool_manager self) !! key = None ->
     (Forall (fun m => MountedServer.match_tool m key = false)
        (Py.od_values (_mounted_servers self)) ->
      _mcp_call_tool (S fuel) request sid key arguments st =
      Some (Raise (NotFoundError ("Unknown tool: " +:+ key))))
     /\ (forall before m after target,
           Py.od_values (_mounted_servers self) = before ++ m :: after ->
           Forall (fun m' => MountedServer.match_tool m' key = false) before ->
           MountedServer.match_tool m key = true ->
           servers st !! MountedServer.server m = Some target ->
           _tools (_tool_manager target) !! MountedServer.strip_tool_prefix m key = None ->
           Forall (fun m' => MountedServer.match_tool m'
                               (MountedServer.strip_tool_prefix m key) = false)
             (Py.od_values (_mounted_servers target)) ->
           _mcp_call_tool (S (S fuel)) request sid key arguments st =
           Some (Raise (NotFoundError
                          ("Unknown tool: " +:+ MountedServer.strip_tool_prefix m key)))))
  /\ (forall uri,
        _resources (_resource_manager self) !! uri = None ->
        (Forall (fun m => MountedServer.match_resource m uri = false)
           (Py.od_values (_mounted_servers self)) ->
         _mcp_read_resource (S fuel) sid uri st =
         Some (Raise (NotFoundError ("Unknown resource: " +:+ uri))))
        /\ (forall before m after target,
              Py.od_values (_mounted_servers self) = before ++ m :: after ->
              Forall (fun m' => MountedServer.match_resource m' uri = false) before ->
              MountedServer.match_resource m uri = true ->
              servers st !! MountedServer.server m = Some target ->
              _resources (_resource_manager target)
                !! MountedServer.strip_resource_prefix m uri = None ->
              Forall (fun m' => MountedServer.match_resource m'
                                  (MountedServer.strip_resource_prefix m uri) = false)
                (Py.od_values (_mounted_servers target)) ->
              _mcp_read_resource (S (S fuel)) sid uri st =
              Some (Raise (NotFoundError
                             ("Unknown resource: "
                              +:+ MountedServer.strip_resource_prefix m uri)))))
  /\ (forall name arguments,
        _prompts (_prompt_manager self) !! name = None ->
        (Forall (fun m => MountedServer.match_prompt m name = false)
           (Py.od_values (_mounted_servers self)) ->
         _mcp_get_prompt (S fuel) sid name arguments st =
         Some (Raise (NotFoundError ("Unknown prompt: " +:+ name))))
        /\ (forall before m after target,
              Py.od_values (_mounted_servers self) = before ++ m :: after ->
              Forall (fun m' => MountedServer.match_prompt m' name = false) before ->
              MountedServer.match_prompt m name = true ->
              servers st !! MountedServer.server m = Some target ->
              _prompts (_prompt_manager target)
                !! MountedServer.strip_prompt_prefix m name = None ->
              Forall (fun m' => MountedServer.match_prompt m'
                                  (MountedServer.strip_prompt_prefix m name) = false)
                (Py.od_values (_mounted_servers target)) ->
              _mcp_get_prompt (S (S fuel)) sid name arguments st =
              Some (Raise (NotFoundError
                             ("Unknown prompt: "
                              +:+ MountedServer.strip_prompt_prefix m name))))).
Proof.
  intros Hs. split; [| split].
  - intros key arguments Hnone. split.
    + intros Hno. erewrite call_tool_mounts by done.
      by rewrite for_else_no_match.
    + intros before m after target Hmounts Hbefore Hm Ht Htnone Htno.
      erewrite call_tool_mounts by done. rewrite Hmounts.
      rewrite for_else_first_match by done.
      erewrite call_tool_mounts by done. by rewrite for_else_no_match.
  - intros uri Hnone. split.
    + intros Hno. erewrite read_resource_mounts by done.
      by rewrite for_else_no_match.
    + intros before m after target Hmounts Hbefore Hm Ht Htnone Htno.
      erewrite read_resource_mounts by done. rewrite Hmounts.
      rewrite for_else_first_match by done.
      erewrite read_resource_mounts by done. by rewrite for_else_no_match.
  - intros name arguments Hnone. split.
    + intros Hno. erewrite get_prompt_mounts by done.
      by rewrite for_else_no_match.
    + intros before m after target Hmounts Hbefore Hm Ht Htnone Htno.
      erewrite get_prompt_mounts by done. rewrite Hmounts.
      rewrite for_else_first_match by done.
      erewrite get_prompt_mounts by done. by rewrite for_else_no_match.
Qed.

(** C8 (a failing read becomes a resource error).  When the URI names a
    resource of the local resource manager and the read of that resource
    raises an exception (an instance of [Exception], which is what the
    handler names), the call raises [ResourceError] with the text of that
    exception: it does not return, and the error is not the not-found error
    of an unresolved URI. *)
Theorem failing_read_raises_resource_error fuel sid self st uri resource e :
  servers st !! sid = Some self ->
  _resources (_resource_manager self) !! uri = Some resource ->
  Resource_read resource = Raises e ->
  isinstance_Exception e = true ->
  _mcp_read_resource (S fuel) sid uri st = Some (Raise (ResourceError (exc_str e)))
  /\ (forall contents, _mcp_read_resource (S fuel) sid uri st <> Some (Return contents))
  /\ (forall msg, ResourceError (exc_str e) <> NotFoundError msg).
Proof.
  intros Hs Hr Hread Hexc.
  assert (Hres : _mcp_read_resource (S fuel) sid uri st =
                 Some (Raise (ResourceError (exc_str e)))).
  { erewrite read_resource_local by done.
    unfold read_local. by rewrite Hread, Hexc. }
  split; [done |]. split; [| done].
  intros contents. by rewrite Hres.
Qed.

(** C9 (unmount).  [unmount(prefix)] on a prefix that is mounted removes
    that binding, leaves the other bindings and the managers as they were
    and clears the cache; on a prefix that is not mounted it fails: the
    [pop] of the mount dictionary raises (the [KeyError] of the missing key
    is the configuration error of this call) and nothing is changed. *)
Theorem unmount_removes_binding_or_fails sid self st prefix :
  servers st !! sid = Some self ->
  (is_Some (Py.od_get prefix (_mounted_servers self)) ->
   exists st' self',
     unmount sid prefix st = Some (st', Return ())
     /\ servers st' !! sid = Some self'
     /\ Py.od_get prefix (_mounted_servers self') = None
     /\ (forall p, p <> prefix ->
           Py.od_get p (_mounted_servers self') = Py.od_get p (_mounted_servers self))
     /\ TimedCache.cache (_cache self') = ∅
     /\ _tool_manager self' = _tool_manager self
     /\ _resource_manager self' = _resource_manager self
     /\ _prompt_manager self' = _prompt_manager self)
  /\ (Py.od_get prefix (_mounted_servers self) = None ->
      unmount sid prefix st = Some (st, Raise (KeyError prefix))).
Proof.
  intros Hs. split.
  - intros [m Hm]. unfold unmount, Py.od_pop, finished.
    rewrite Hs; simpl. rewrite Hm; simpl.
    rewrite cache_clear_set_server; simpl.
    eexists _, _. split; [done |]. simpl. rewrite lookup_insert_eq.
    split; [done |]. simpl.
    split; [apply od_get_remove_eq |].
    split; [intros p Hp; by apply od_get_remove_ne |]. done.
  - intros Hnone. unfold unmount, Py.od_pop. rewrite Hs; simpl. by rewrite Hnone.
Qed.

End DispatchClaims.

(** ** Listing *)

Section ListingProperties.
Context `{Collaborators}.

Lemma cache_key_inj cat cat' : cache_key cat = cache_key cat' -> cat = cat'.
Proof. by destruct cat, cat'. Qed.

Lemma registry_of_local_items cat s s' :
  registry_of s = registry_of s' -> local_items cat s = local_items cat s'.
Proof. unfold registry_of. intros [= ? ? ? ? ?]. destruct cat; simpl; congruence. Qed.

Lemma registry_of_mounts s s' :
  registry_of s = registry_of s' -> _mounted_servers s = _mounted_servers s'.
Proof. unfold registry_of. by intros [= ? ? ? ? ?]. Qed.

Lemma same_registries_refl st : same_registries st st.
Proof. by intros i. Qed.

Lemma same_registries_trans st1 st2 st3 :
  same_registries st1 st2 -> same_registries st2 st3 -> same_registries st1 st3.
Proof. intros H12 H23 i. by rewrite H23, H12. Qed.


Lemma same_registries_lookup st st' i s :
  same_registries st st' -> servers st !! i = Some s ->
  exists s', servers st' !! i = Some s' /\ registry_of s' = registry_of s.
Proof.
  intros Hsame Hs. specialize (Hsame i). rewrite Hs in Hsame. simpl in Hsame.
  destruct (servers st' !! i) as [s'|]; simpl in Hsame; [| done].
  exists s'. split; [done | congruence].
Qed.

Lemma listing_step_refl st : listing_step st st.
Proof.
  split; [apply same_registries_refl | done |].
  exists []. by rewrite app_nil_r.
Qed.

Lemma listing_step_trans st1 st2 st3 :
  listing_step st1 st2 -> listing_step st2 st3 -> listing_step st1 st3.
Proof.
  intros [R12 A12 (e12 & E12 & F12)] [R23 A23 (e23 & E23 & F23)]. split.
  - by eapply same_registries_trans.
  - intros i Hi. by apply A23, A12.
  - exists (e12 ++ e23). rewrite E23, E12, app_assoc. split; [done |].
    by apply Forall_app.
Qed.


(** Storing a freshly computed listing keeps the caches in agreement with
    the local registries. *)
Lemma cache_set_step cat sid now st st' self items :
  servers st !! sid = Some self ->
  local_items cat self ⊆ items ->
  cache_set sid (cache_key cat) items now st = Some st' ->
  listing_step st st'.
Proof.
  intros Hs Hsub. unfold cache_set. rewrite Hs; simpl. intros [= <-]. split.
  - intros i; simpl. destruct (decide (i = sid)) as [->|Hne].
    + by rewrite lookup_insert_eq, Hs.
    + by rewrite lookup_insert_ne.
  - intros i Hag self' cat' items' expires; simpl.
    destruct (decide (i = sid)) as [->|Hne].
    + rewrite lookup_insert_eq. intros [= <-]; simpl.
      destruct (decide (cache_key cat' = cache_key cat)) as [Heq|Hk].
      * rewrite Heq, lookup_insert_eq. intros [= <- <-].
        by apply cache_key_inj in Heq as ->.
      * rewrite lookup_insert_ne by done. intros Hc.
        by apply (Hag self cat' items' expires).
    + rewrite lookup_insert_ne by done. apply Hag.
  - simpl. exists [CacheSet sid (cache_key cat)]. split; [done |].
    by constructor.
Qed.

Lemma update_from_mounts_cons get_from m mounts st acc st1 items :
  get_from m st = Some (st1, items) ->
  update_from_mounts get_from (m :: mounts) st acc =
  update_from_mounts get_from mounts st1 (Py.update acc items).
Proof. intros Hm; simpl. by rewrite Hm. Qed.

Lemma update_from_mounts_cons_inv get_from m mounts st acc st' res :
  update_from_mounts get_from (m :: mounts) st acc = Some (st', res) ->
  exists st1 items,
    get_from m st = Some (st1, items)
    /\ update_from_mounts get_from mounts st1 (Py.update acc items) = Some (st', res).
Proof.
  simpl. destruct (get_from m st) as [[st1 items]|]; simpl; [| done]. eauto.
Qed.

Lemma MountedServer_get_items_inv get cat m st st' items :
  MountedServer_get_items get cat m st = Some (st', items) ->
  exists src, get (MountedServer.server m) st = Some (st', src)
              /\ items = prefixed cat m src.
Proof.
  unfold MountedServer_get_items.
  destruct (get (MountedServer.server m) st) as [[st1 src]|]; simpl; [| done].
  intros [= <- <-]. eauto.
Qed.

Lemma MountedServer_get_items_Some get cat m st st' src :
  get (MountedServer.server m) st = Some (st', src) ->
  MountedServer_get_items get cat m st = Some (st', prefixed cat m src).
Proof. unfold MountedServer_get_items. by intros ->. Qed.

Lemma update_from_mounts_step get_from mounts st acc st' res :
  (forall m st0 st1 items,
     m ∈ mounts -> get_from m st0 = Some (st1, items) -> listing_step st0 st1) ->
  update_from_mounts get_from mounts st acc = Some (st', res) ->
  listing_step st st'.
Proof.
  revert st acc. induction mounts as [|m mounts IH]; intros st acc Hget; simpl.
  - intros [= <- <-]. apply listing_step_refl.
  - destruct (get_from m st) as [[st1 items]|] eqn:Hm; simpl; [| done].
    intros Hloop. eapply listing_step_trans.
    + eapply Hget; [left | done].
    + eapply IH; [| done]. intros m' ? ? ? Hin. apply Hget. by right.
Qed.

Lemma update_local_subseteq (acc loc : gmap string Item) : loc ⊆ Py.update acc loc.
Proof. unfold Py.update. apply map_union_subseteq_l. Qed.

(** A listing call fills caches and nothing else, and its result gives the
    local items of the listed server under their own keys. *)
Lemma get_items_step fuel cat sid now st st' items :
  get_items fuel cat sid now st = Some (st', items) ->
  listing_step st st'
  /\ (cache_agrees_with_local st sid ->
      forall self, servers st !! sid = Some self -> local_items cat self ⊆ items).
Proof.
  revert sid st st' items.
  induction fuel as [|fuel IH]; intros sid st st' items; simpl; [done |].
  destruct (servers st !! sid) as [self|] eqn:Hs; simpl; [| done].
  destruct (TimedCache.get (_cache self) (cache_key cat) now) as [hit|] eqn:Hget.
  - intros [= <- <-]. split; [apply listing_step_refl |].
    intros Hag self0 [= <-]. unfold TimedCache.get in Hget.
    destruct (TimedCache.cache (_cache self) !! cache_key cat) as [[v e]|] eqn:Hc;
      [| done].
    simpl in Hget. case_bool_decide; [| done]. injection Hget as ->.
    by eapply Hag.
  - unfold compute_items. rewrite Hs; simpl.
    destruct (update_from_mounts _ _ st ∅) as [[st1 acc]|] eqn:Hloop; simpl; [| done].
    assert (Hstep1 : listing_step st st1).
    { eapply update_from_mounts_step; [| done].
      intros m st0 st2 items0 _. unfold MountedServer_get_items.
      destruct (get_items fuel cat (MountedServer.server m) now st0)
        as [[st3 its]|] eqn:Hrec; simpl; [| done].
      intros [= <- <-]. by apply IH in Hrec as [? _]. }
    destruct (servers st1 !! sid) as [self1|] eqn:Hs1; simpl; [| done].
    destruct (cache_set sid (cache_key cat) _ now st1) as [st2|] eqn:Hset;
      simpl; [| done].
    intros [= <- <-].
    assert (Hstep2 : listing_step st1 st2).
    { eapply cache_set_step; [done | | done]. apply update_local_subseteq. }
    split; [by eapply listing_step_trans |].
    intros _ self0 [= <-].
    destruct (same_registries_lookup _ _ _ _ (step_registries _ _ Hstep1) Hs)
      as (self1' & Hs1' & Hreg).
    rewrite Hs1 in Hs1'. injection Hs1' as <-.
    rewrite <- (registry_of_local_items cat _ _ Hreg).
    apply update_local_subseteq.
Qed.

Lemma reads_step st st' : reads st st' -> listing_step st st'.
Proof.
  induction 1 as [st|st st' st'' fuel cat sid now items Hget _ IH].
  - apply listing_step_refl.
  - eapply listing_step_trans; [| done]. by apply get_items_step in Hget as [? _].
Qed.


End ListingProperties.

(** ** Mutations *)

Section MutationProperties.
Context `{Collaborators}.


(** A mutation other than an import writes one field of the server and
    then clears its cache. *)
Lemma local_mutation_Return m sid st st' :
  is_import m = false ->
  mutate m sid st = Some (st', Return ()) ->
  exists self new,
    servers st !! sid = Some self
    /\ st' = MakeState
               (<[sid := with_cache new (TimedCache.clear (_cache new))]> (servers st))
               (cache_events st ++ [CacheClear sid]).
Proof.
  intros Hm.
  destruct m; try done; simpl;
    unfold add_tool, add_resource, add_resource_fn, add_prompt, mount, unmount, finished;
    destruct (servers st !! sid) as [self|] eqn:Hs; simpl; try done.
  - destruct (ToolManager_add_tool_from_fn _ _ _ _ _); [| done].
    rewrite cache_clear_set_server; simpl. intros [= <-].
    by lazymatch goal with |- context [with_cache ?new _] => exists self, new end.
  - destruct (ResourceManager_add_resource _ _ _); [| done].
    rewrite cache_clear_set_server; simpl. intros [= <-].
    by lazymatch goal with |- context [with_cache ?new _] => exists self, new end.
  - destruct (ResourceManager_add_resource_or_template_from_fn _ _ _ _ _ _ _); [| done].
    rewrite cache_clear_set_server; simpl. intros [= <-].
    by lazymatch goal with |- context [with_cache ?new _] => exists self, new end.
  - destruct (PromptManager_add_prompt_from_fn _ _ _ _ _); [| done].
    rewrite cache_clear_set_server; simpl. intros [= <-].
    by lazymatch goal with |- context [with_cache ?new _] => exists self, new end.
  - rewrite cache_clear_set_server; simpl. intros [= <-].
    by lazymatch goal with |- context [with_cache ?new _] => exists self, new end.
  - destruct (Py.od_pop _ _) as [[? ?]|]; [| done].
    rewrite cache_clear_set_server; simpl. intros [= <-].
    by lazymatch goal with |- context [with_cache ?new _] => exists self, new end.
Qed.


(** A mutation other than an import that raises has written nothing. *)
Lemma local_mutation_Raise m sid st st' e :
  is_import m = false ->
  mutate m sid st = Some (st', Raise e) ->
  st' = st.
Proof.
  intros Hm.
  destruct m; try done; simpl;
    unfold add_tool, add_resource, add_resource_fn, add_prompt, mount, unmount, finished;
    destruct (servers st !! sid) as [self|] eqn:Hs; simpl; try done.
  - destruct (ToolManager_add_tool_from_fn _ _ _ _ _); [| by intros [= <- _]].
    by rewrite cache_clear_set_server.
  - destruct (ResourceManager_add_resource _ _ _); [| by intros [= <- _]].
    by rewrite cache_clear_set_server.
  - destruct (ResourceManager_add_resource_or_template_from_fn _ _ _ _ _ _ _);
      [| by intros [= <- _]].
    by rewrite cache_clear_set_server.
  - destruct (PromptManager_add_prompt_from_fn _ _ _ _ _); [| by intros [= <- _]].
    by rewrite cache_clear_set_server.
  - by rewrite cache_clear_set_server.
  - destruct (Py.od_pop _ _) as [[? ?]|]; [| by intros [= <- _]].
    by rewrite cache_clear_set_server.
Qed.

Lemma leaf_add_Return policy (items : gmap string Item) item key items' :
  leaf_add policy items item key = Return items' ->
  items' = <[Py.or_default key (Item_key item) := item]> items.
Proof.
  unfold leaf_add.
  destruct (items !! Py.or_default key (Item_key item)), policy; by intros [= <-].
Qed.

Lemma manager_add_Return cat self item key self' :
  manager_add cat self item key = Return self' ->
  _cache self' = _cache self
  /\ _mounted_servers self' = _mounted_servers self
  /\ local_items cat self' = <[key := item]> (local_items cat self)
  /\ (forall cat', cat' <> cat -> local_items cat' self' = local_items cat' self).
Proof.
  destruct cat; simpl;
    unfold ToolManager_add_tool, ResourceManager_add_resource,
      ResourceManager_add_template, PromptManager_add_prompt;
    destruct (leaf_add _ _ _ _) eqn:Hl; intros [= <-];
    apply leaf_add_Return in Hl as ->;
    (split; [done |]); (split; [done |]); (split; [done |]);
    by intros [].
Qed.

Lemma add_each_frame cat kp entries self self' r :
  add_each cat kp entries self = (self', r) ->
  _cache self' = _cache self
  /\ _mounted_servers self' = _mounted_servers self
  /\ (forall cat', cat' <> cat -> local_items cat' self' = local_items cat' self).
Proof.
  revert self. induction entries as [|[k v] entries IH]; intros self; simpl.
  - by intros [= <- <-].
  - destruct (manager_add cat self v (kp +:+ k)) as [self1|e] eqn:Hadd.
    + intros Hrest. apply IH in Hrest as (Hc & Hm & Hl).
      apply manager_add_Return in Hadd as (Hc1 & Hm1 & _ & Hl1).
      split; [congruence |]. split; [congruence |].
      intros cat' Hne. by rewrite Hl, Hl1.
    + by intros [= <- <-].
Qed.

Lemma add_each_Return cat kp entries self self' :
  NoDup entries.*1 ->
  add_each cat kp entries self = (self', Return ()) ->
  local_items cat self' =
  Py.update (local_items cat self)
    (list_to_map (prod_map (String.append kp) id <$> entries)).
Proof.
  unfold Py.update. revert self.
  induction entries as [|[k v] entries IH]; intros self Hnd Hadd0.
  - simpl in Hadd0. injection Hadd0 as <-.
    by rewrite fmap_nil, list_to_map_nil, (left_id_L ∅ (∪)).
  - rewrite fmap_cons in Hnd. apply NoDup_cons in Hnd as [Hk Hnd].
    cbn [add_each] in Hadd0.
    destruct (manager_add cat self v (kp +:+ k)) as [self1|e] eqn:Hadd; [| done].
    rewrite (IH _ Hnd Hadd0).
    apply manager_add_Return in Hadd as (_ & _ & -> & _).
    rewrite fmap_cons.
    change (prod_map (String.append kp) id (k, v)) with (kp +:+ k, v).
    rewrite list_to_map_cons, <- insert_union_l. symmetry. apply insert_union_r.
    apply not_elem_of_list_to_map_1.
    rewrite <- list_fmap_compose.
    intros ([k' v'] & Heq & Hin)%list_elem_of_fmap. simpl in Heq.
    apply (inj (String.append kp)) in Heq as ->.
    apply Hk. apply list_elem_of_fmap. by exists (k', v').
Qed.

Lemma import_items_inv fuel cat sid src kp now st st' r :
  import_items fuel cat sid src kp now st = Some (st', r) ->
  exists st1 listing self1 self',
    get_items fuel cat src now st = Some (st1, listing)
    /\ servers st1 !! sid = Some self1
    /\ add_each cat kp (map_to_list listing) self1 = (self', r)
    /\ st' = set_server sid self' st1.
Proof.
  unfold import_items.
  destruct (get_items fuel cat src now st) as [[st1 listing]|]; simpl; [| done].
  destruct (servers st1 !! sid) as [self1|] eqn:Hs1; simpl; [| done].
  destruct (add_each cat kp (map_to_list listing) self1) as [self' r'] eqn:Hadd.
  intros [= <- <-]. by exists st1, listing, self1, self'.
Qed.

End MutationProperties.

(** ** Import *)

Section ImportProperties.
Context `{Collaborators}.

Lemma fmap_registry_mounts (o1 o2 : option FastMCP) :
  registry_of <$> o1 = registry_of <$> o2 ->
  _mounted_servers <$> o1 = _mounted_servers <$> o2.
Proof.
  destruct o1 as [s1|], o2 as [s2|]; simpl; try done.
  intros Heq. f_equal. apply registry_of_mounts. congruence.
Qed.

Lemma fmap_registry_local cat (o1 o2 : option FastMCP) :
  registry_of <$> o1 = registry_of <$> o2 ->
  local_items cat <$> o1 = local_items cat <$> o2.
Proof.
  destruct o1 as [s1|], o2 as [s2|]; simpl; try done.
  intros Heq. f_equal. apply registry_of_local_items. congruence.
Qed.

Lemma same_view_refl cat st : same_view cat st st.
Proof. by intros i. Qed.

Lemma same_view_trans cat st1 st2 st3 :
  same_view cat st1 st2 -> same_view cat st2 st3 -> same_view cat st1 st3.
Proof. intros H12 H23 i. by rewrite H23, H12. Qed.

Lemma same_view_sym cat st1 st2 : same_view cat st1 st2 -> same_view cat st2 st1.
Proof. intros H12 i. by rewrite H12. Qed.

Lemma same_view_lookup cat st st' i s :
  same_view cat st st' -> servers st !! i = Some s ->
  exists s', servers st' !! i = Some s' /\ listing_view cat s' = listing_view cat s.
Proof.
  intros Hsame Hs. specialize (Hsame i). rewrite Hs in Hsame. simpl in Hsame.
  destruct (servers st' !! i) as [s'|]; simpl in Hsame; [| done].
  exists s'. split; [done | congruence].
Qed.

Lemma local_items_with_cache cat s c :
  local_items cat (with_cache s c) = local_items cat s.
Proof. by destruct cat. Qed.

(** Storing a listing of one category changes what the listings of that
    category read in the same way on two stores that look alike to them. *)
Lemma cache_set_same_view cat sid items now st1 st2 st1' :
  same_view cat st1 st2 ->
  cache_set sid (cache_key cat) items now st1 = Some st1' ->
  exists st2', cache_set sid (cache_key cat) items now st2 = Some st2'
               /\ same_view cat st1' st2'.
Proof.
  intros Hv. unfold cache_set.
  destruct (servers st1 !! sid) as [s1|] eqn:Hs1; simpl; [| done].
  intros [= <-].
  destruct (same_view_lookup _ _ _ _ _ Hv Hs1) as (s2 & Hs2 & Hview).
  rewrite Hs2; simpl. eexists. split; [done |].
  intros i; simpl. destruct (decide (i = sid)) as [->|Hne].
  - rewrite !lookup_insert_eq; simpl. f_equal.
    unfold listing_view in *. injection Hview as Hm Hl He Hc.
    rewrite !local_items_with_cache; simpl. rewrite !lookup_insert_eq.
    by rewrite Hm, Hl, He.
  - rewrite !lookup_insert_ne by done. apply Hv.
Qed.

(** Storing a listing of one category is not seen by the listings of
    another. *)
Lemma cache_set_other_view cat cat' sid items now st st' :
  cat <> cat' ->
  cache_set sid (cache_key cat') items now st = Some st' ->
  same_view cat st st'.
Proof.
  intros Hne. unfold cache_set.
  destruct (servers st !! sid) as [s|] eqn:Hs; simpl; [| done].
  intros [= <-] i; simpl. destruct (decide (i = sid)) as [->|Hi].
  - rewrite lookup_insert_eq, Hs; simpl. f_equal. unfold listing_view.
    rewrite local_items_with_cache; simpl.
    rewrite lookup_insert_ne; [done |].
    intros Heq. apply Hne. symmetry. by apply cache_key_inj.
  - by rewrite lookup_insert_ne.
Qed.

(** A listing of a category depends on the store only through what
    [listing_view] shows of it. *)
Lemma get_items_same_view cat now fuel :
  forall sid st1 st2 st1' items,
    same_view cat st1 st2 ->
    get_items fuel cat sid now st1 = Some (st1', items) ->
    exists st2', get_items fuel cat sid now st2 = Some (st2', items)
                 /\ same_view cat st1' st2'.
Proof.
  induction fuel as [|fuel IH]; intros sid st1 st2 st1' items Hv; [done |].
  simpl.
  destruct (servers st1 !! sid) as [s1|] eqn:Hs1; simpl; [| done].
  destruct (same_view_lookup _ _ _ _ _ Hv Hs1) as (s2 & Hs2 & Hview).
  rewrite Hs2; simpl.
  pose proof Hview as Hview'. unfold listing_view in Hview'.
  injection Hview' as Hm _ _ Hc.
  assert (Hget : TimedCache.get (_cache s2) (cache_key cat) now
                 = TimedCache.get (_cache s1) (cache_key cat) now).
  { unfold TimedCache.get.
    exact (f_equal
             (fun o : option (gmap string Item * Time) =>
                match o with
                | Some value =>
                    if bool_decide (value.2 > now)%Z
                    then TimedCache.Found value.1 else TimedCache.NOT_FOUND
                | None => TimedCache.NOT_FOUND
                end) Hc). }
  rewrite Hget.
  destruct (TimedCache.get (_cache s1) (cache_key cat) now) as [hit|].
  { intros [= <- <-]. by exists st2. }
  unfold compute_items. rewrite Hs1, Hs2; simpl. rewrite Hm.
  assert (Hloop : forall mounts a1 a2 acc a1' res,
    same_view cat a1 a2 ->
    update_from_mounts
      (MountedServer_get_items (fun target => get_items fuel cat target now) cat)
      mounts a1 acc = Some (a1', res) ->
    exists a2',
      update_from_mounts
        (MountedServer_get_items (fun target => get_items fuel cat target now) cat)
        mounts a2 acc = Some (a2', res)
      /\ same_view cat a1' a2').
  { induction mounts as [|m mounts IHm]; intros a1 a2 acc a1' res Hva.
    - simpl. intros [= <- <-]. by exists a2.
    - intros (a1a & its & Hm1 & Hrest)%update_from_mounts_cons_inv.
      apply MountedServer_get_items_inv in Hm1 as (src & Hrec & ->).
      destruct (IH _ _ a2 _ _ Hva Hrec) as (a2a & Hrec2 & Hvaa).
      destruct (IHm _ _ _ _ _ Hvaa Hrest) as (a2' & Hr2 & Hv').
      exists a2'. split; [| done].
      erewrite update_from_mounts_cons; [done |].
      by apply MountedServer_get_items_Some. }
  destruct (update_from_mounts _ _ st1 ∅) as [[a1 acc]|] eqn:Hl1; simpl; [| done].
  destruct (Hloop _ _ _ _ _ _ Hv Hl1) as (a2 & -> & Hva). simpl.
  destruct (servers a1 !! sid) as [s1a|] eqn:Hs1a; simpl; [| done].
  destruct (same_view_lookup _ _ _ _ _ Hva Hs1a) as (s2a & Hs2a & Hviewa).
  rewrite Hs2a; simpl.
  unfold listing_view in Hviewa. injection Hviewa as _ Hla _ _. rewrite Hla.
  destruct (cache_set sid _ _ now a1) as [b1|] eqn:Hset; simpl; [| done].
  intros [= <- <-].
  destruct (cache_set_same_view _ _ _ _ _ _ _ Hva Hset) as (b2 & -> & Hvb). simpl.
  by exists b2.
Qed.

(** A listing of one category changes nothing of what the listings of
    another category read. *)
Lemma get_items_other_view cat cat' now fuel :
  cat <> cat' ->
  forall sid st st' items,
    get_items fuel cat' sid now st = Some (st', items) -> same_view cat st st'.
Proof.
  intros Hne. induction fuel as [|fuel IH]; intros sid st st' items; [done |].
  simpl.
  destruct (servers st !! sid) as [s|] eqn:Hs; simpl; [| done].
  destruct (TimedCache.get (_cache s) (cache_key cat') now) as [hit|].
  { intros [= <- <-]. apply same_view_refl. }
  unfold compute_items. rewrite Hs; simpl.
  assert (Hloop : forall mounts a acc a' res,
    update_from_mounts
      (MountedServer_get_items (fun target => get_items fuel cat' target now) cat')
      mounts a acc = Some (a', res) ->
    same_view cat a a').
  { induction mounts as [|m mounts IHm]; intros a acc a' res.
    - simpl. intros [= <- <-]. apply same_view_refl.
    - intros (a1 & its & Hm1 & Hrest)%update_from_mounts_cons_inv.
      apply MountedServer_get_items_inv in Hm1 as (src & Hrec & ->).
      eapply same_view_trans; [by eapply IH | by eapply IHm]. }
  destruct (update_from_mounts _ _ st ∅) as [[a acc]|] eqn:Hl; simpl; [| done].
  destruct (servers a !! sid) as [sa|]; simpl; [| done].
  destruct (cache_set sid _ _ now a) as [b|] eqn:Hset; simpl; [| done].
  intros [= <- <-].
  eapply same_view_trans; [by eapply Hloop |].
  by eapply cache_set_other_view.
Qed.

(** One loop of [import_server] changes nothing of what the listings of the
    other categories read, also when it raises. *)
Lemma import_items_other_view cat cat' fuel sid src kp now st st' r :
  cat <> cat' ->
  import_items fuel cat' sid src kp now st = Some (st', r) ->
  same_view cat st st'.
Proof.
  intros Hne (st1 & listing & self1 & self' & Hget & Hs1 & Hadd & ->)%import_items_inv.
  eapply same_view_trans; [by eapply get_items_other_view |].
  apply add_each_frame in Hadd as (Hc & Hm & Hl).
  intros i; simpl. destruct (decide (i = sid)) as [->|Hi].
  - rewrite lookup_insert_eq, Hs1; simpl. f_equal. unfold listing_view.
    by rewrite Hc, Hm, Hl.
  - by rewrite lookup_insert_ne.
Qed.








Lemma import_progress_refl sid st : import_progress sid st st.
Proof. split; [done | done | done |]. exists []. by rewrite app_nil_r. Qed.

Lemma import_progress_trans sid st1 st2 st3 :
  import_progress sid st1 st2 -> import_progress sid st2 st3 ->
  import_progress sid st1 st3.
Proof.
  intros [O12 M12 A12 (e12 & E12 & F12)] [O23 M23 A23 (e23 & E23 & F23)]. split.
  - intros i Hi. by rewrite O23, O12.
  - intros i. by rewrite M23, M12.
  - intros i Hi Hag. by apply A23, A12.
  - exists (e12 ++ e23). rewrite E23, E12, app_assoc. split; [done |].
    by apply Forall_app.
Qed.

Lemma listing_step_progress sid st st' :
  listing_step st st' -> import_progress sid st st'.
Proof.
  intros [R A E]. split; [| | | done].
  - intros i _. apply R.
  - intros i. apply fmap_registry_mounts, R.
  - intros i _. apply A.
Qed.

Lemma local_at_listing_step cat sid st st' :
  listing_step st st' -> local_at cat sid st' = local_at cat sid st.
Proof. intros [R _ _]. apply fmap_registry_local, R. Qed.

(** One loop of [import_server] that ran to its end. *)
Lemma import_items_Return fuel cat sid src kp now st st' :
  import_items fuel cat sid src kp now st = Some (st', Return ()) ->
  import_progress sid st st'
  /\ (exists st1 listing,
        get_items fuel cat src now st = Some (st1, listing)
        /\ local_at cat sid st' =
           (fun l => Py.update l (kmap (String.append kp) listing))
             <$> local_at cat sid st)
  /\ (forall cat', cat' <> cat -> local_at cat' sid st' = local_at cat' sid st).
Proof.
  intros (st1 & listing & self1 & self' & Hget & Hs1 & Hadd & ->)%import_items_inv.
  pose proof (add_each_frame _ _ _ _ _ _ Hadd) as (Hc & Hm & Hother).
  apply add_each_Return in Hadd; [| apply NoDup_fst_map_to_list].
  pose proof Hget as [Hstep _]%get_items_step.
  split; [| split].
  - eapply import_progress_trans; [by apply listing_step_progress |].
    split; simpl.
    + intros i Hi. by rewrite lookup_insert_ne.
    + intros i. destruct (decide (i = sid)) as [->|Hi].
      * rewrite lookup_insert_eq, Hs1; simpl. by rewrite Hm.
      * by rewrite lookup_insert_ne.
    + intros i Hi Hag self0 cat0 items0 expires0; simpl.
      rewrite lookup_insert_ne by done. apply Hag.
    + exists []. by rewrite app_nil_r.
  - exists st1, listing. split; [done |].
    rewrite <- (local_at_listing_step cat sid _ _ Hstep).
    unfold local_at; simpl. rewrite lookup_insert_eq, Hs1; simpl.
    by rewrite Hadd.
  - intros cat' Hne. rewrite <- (local_at_listing_step cat' sid _ _ Hstep).
    unfold local_at; simpl. rewrite lookup_insert_eq, Hs1; simpl.
    by rewrite Hother.
Qed.

Lemma cache_clear_inv sid st st' :
  cache_clear sid st = Some st' ->
  exists self,
    servers st !! sid = Some self
    /\ st' = MakeState
               (<[sid := with_cache self (TimedCache.clear (_cache self))]> (servers st))
               (cache_events st ++ [CacheClear sid]).
Proof.
  unfold cache_clear. destruct (servers st !! sid) as [self|]; simpl; [| done].
  intros [= <-]. by exists self.
Qed.

Lemma import_server_inv fuel sid prefix src ts rs ps now st st' :
  import_server fuel sid prefix src ts rs ps now st = Some (st', Return ()) ->
  exists st1 st2 st3 st4,
    import_items fuel Tools sid src (import_prefix Tools prefix ts rs ps) now st
      = Some (st1, Return ())
    /\ import_items fuel Resources sid src (import_prefix Resources prefix ts rs ps)
         now st1 = Some (st2, Return ())
    /\ import_items fuel ResourceTemplates sid src
         (import_prefix ResourceTemplates prefix ts rs ps) now st2
       = Some (st3, Return ())
    /\ import_items fuel Prompts sid src (import_prefix Prompts prefix ts rs ps)
         now st3 = Some (st4, Return ())
    /\ cache_clear sid st4 = Some st'.
Proof.
  unfold import_server, and_then, finished, import_prefix.
  destruct (import_items fuel Tools _ _ _ _ st) as [[st1 [[]|]]|] eqn:H1; [| done..].
  destruct (import_items fuel Resources _ _ _ _ st1) as [[st2 [[]|]]|] eqn:H2;
    [| done..].
  destruct (import_items fuel ResourceTemplates _ _ _ _ st2) as [[st3 [[]|]]|] eqn:H3;
    [| done..].
  destruct (import_items fuel Prompts _ _ _ _ st3) as [[st4 [[]|]]|] eqn:H4;
    [| done..].
  destruct (cache_clear sid st4) as [st5|] eqn:Hclear; simpl; [| done].
  intros [= <-]. by exists st1, st2, st3, st4.
Qed.

(** An import that ran to its end. *)
Lemma import_server_Return fuel sid prefix src ts rs ps now st st' :
  import_server fuel sid prefix src ts rs ps now st = Some (st', Return ()) ->
  (forall cat, exists st_b listing,
      get_items fuel cat src now st = Some (st_b, listing)
      /\ local_at cat sid st' =
         (fun l => Py.update l
                     (kmap (String.append (import_prefix cat prefix ts rs ps)) listing))
           <$> local_at cat sid st)
  /\ (forall i, i <> sid ->
        registry_of <$> (servers st' !! i) = registry_of <$> (servers st !! i))
  /\ (forall i, _mounted_servers <$> (servers st' !! i)
                = _mounted_servers <$> (servers st !! i))
  /\ (exists sets, cache_events st' = cache_events st ++ sets ++ [CacheClear sid]
                   /\ Forall (fun ev => is_cache_clear ev = false) sets)
  /\ (exists self', servers st' !! sid = Some self'
                    /\ TimedCache.cache (_cache self') = ∅)
  /\ (forall i, i <> sid ->
        cache_agrees_with_local st i -> cache_agrees_with_local st' i).
Proof.
  intros (st1 & st2 & st3 & st4 & H1 & H2 & H3 & H4 & Hclear)%import_server_inv.
  assert (Hpinned : forall cat st_a st_b listing,
    same_view cat st st_a ->
    get_items fuel cat src now st_a = Some (st_b, listing) ->
    exists st_c, get_items fuel cat src now st = Some (st_c, listing)).
  { intros cat st_a st_b listing Hv Hget.
    destruct (get_items_same_view cat now fuel src st_a st st_b listing
                (same_view_sym _ _ _ Hv) Hget) as (st_c & Hget' & _).
    by exists st_c. }
  assert (V1 : forall cat, cat <> Tools -> same_view cat st st1)
    by (intros cat Hne; by eapply import_items_other_view).
  assert (V2 : forall cat, cat <> Resources -> same_view cat st1 st2)
    by (intros cat Hne; by eapply import_items_other_view).
  assert (V3 : forall cat, cat <> ResourceTemplates -> same_view cat st2 st3)
    by (intros cat Hne; by eapply import_items_other_view).
  apply import_items_Return in H1 as (P1 & (a1 & l1 & G1 & C1) & O1).
  apply import_items_Return in H2 as (P2 & (a2 & l2 & G2 & C2) & O2).
  apply import_items_Return in H3 as (P3 & (a3 & l3 & G3 & C3) & O3).
  apply import_items_Return in H4 as (P4 & (a4 & l4 & G4 & C4) & O4).
  apply cache_clear_inv in Hclear as (self4 & Hs4 & ->).
  pose proof (import_progress_trans _ _ _ _ P1 P2) as P12.
  pose proof (import_progress_trans _ _ _ _ P12 P3) as P13.
  pose proof (import_progress_trans _ _ _ _ P13 P4) as [O14 M14 A14 (sets & E14 & F14)].
  assert (Hlast : forall cat,
    local_at cat sid
      (MakeState
         (<[sid := with_cache self4 (TimedCache.clear (_cache self4))]> (servers st4))
         (cache_events st4 ++ [CacheClear sid]))
    = local_at cat sid st4).
  { intros cat. unfold local_at; simpl. rewrite lookup_insert_eq, Hs4; simpl.
    by destruct cat. }
  split; [| split; [| split; [| split; [| split]]]].
  - intros cat. destruct cat.
    + exists a1, l1. split; [done |].
      rewrite Hlast, O4, O3, O2 by done. done.
    + destruct (Hpinned Resources st1 a2 l2) as (b2 & Hb2); [by apply V1 | done |].
      exists b2, l2. split; [done |].
      rewrite Hlast, O4, O3 by done. rewrite C2. by rewrite O1.
    + destruct (Hpinned ResourceTemplates st2 a3 l3) as (b3 & Hb3); [| done |].
      { eapply same_view_trans; [by apply V1 | by apply V2]. }
      exists b3, l3. split; [done |].
      rewrite Hlast, O4 by done. rewrite C3. by rewrite O2, O1.
    + destruct (Hpinned Prompts st3 a4 l4) as (b4 & Hb4); [| done |].
      { eapply same_view_trans; [by apply V1 |].
        eapply same_view_trans; [by apply V2 | by apply V3]. }
      exists b4, l4. split; [done |].
      rewrite Hlast. rewrite C4. by rewrite O3, O2, O1.
  - intros i Hi; simpl. rewrite lookup_insert_ne by done. by apply O14.
  - intros i; simpl. destruct (decide (i = sid)) as [->|Hi].
    + rewrite lookup_insert_eq. rewrite <- M14, Hs4. done.
    + rewrite lookup_insert_ne by done. apply M14.
  - exists sets; simpl. rewrite E14. by rewrite app_assoc.
  - eexists; simpl. rewrite lookup_insert_eq. done.
  - intros i Hi Hag self0 cat0 items0 expires0; simpl.
    rewrite lookup_insert_ne by done. by apply A14.
Qed.

End ImportProperties.

(** ** The caches agree with the local registries *)

Section Agreement.
Context `{Collaborators}.

Lemma empty_cache_agrees st sid :
  (forall self, servers st !! sid = Some self -> TimedCache.cache (_cache self) = ∅) ->
  cache_agrees_with_local st sid.
Proof.
  intros Hempty self cat items expires Hs. by rewrite (Hempty _ Hs), lookup_empty.
Qed.

(** A server as [FastMCP.__init__] leaves it agrees. *)
Lemma init_agrees st sid expiration dt dr dp :
  servers st !! sid = Some (FastMCP_init expiration dt dr dp) ->
  cache_agrees_with_local st sid.
Proof.
  intros Hs. apply empty_cache_agrees. intros self. rewrite Hs. by intros [= <-].
Qed.

(** Every mutation that runs to its end leaves the caches in agreement. *)
Lemma mutation_keeps_agreement m sid st st' :
  mutate m sid st = Some (st', Return ()) ->
  (forall i, cache_agrees_with_local st i) ->
  forall i, cache_agrees_with_local st' i.
Proof.
  intros Hmut Hag i. destruct (is_import m) eqn:Him.
  - destruct m; try done. simpl in Hmut.
    apply import_server_Return in Hmut
      as (_ & _ & _ & _ & (self' & Hs' & Hempty) & Hothers).
    destruct (decide (i = sid)) as [->|Hi]; [| by apply Hothers].
    apply empty_cache_agrees. intros self. rewrite Hs'. by intros [= <-].
  - destruct (local_mutation_Return _ _ _ _ Him Hmut) as (self & new & Hs & ->).
    destruct (decide (i = sid)) as [->|Hi].
    + apply empty_cache_agrees. intros self0; simpl.
      rewrite lookup_insert_eq. by intros [= <-].
    + intros self0 cat items expires; simpl.
      rewrite lookup_insert_ne by done. apply Hag.
Qed.

(** X19 (the caches never contradict the local registries).  The agreement
    is an invariant of the store: it holds of servers as [__init__] leaves
    them and survives every run of listing calls, of mutations that run to
    their end and of mutations other than imports that raise. *)
Lemma run_keeps_agreement st st' :
  run st st' ->
  (forall i, cache_agrees_with_local st i) ->
  forall i, cache_agrees_with_local st' i.
Proof.
  induction 1 as [st | st st' st'' fuel cat sid now items Hget _ IH
                  | st st' st'' m sid Hmut _ IH
                  | st st' st'' m sid e Him Hmut _ IH]; intros Hag.
  - done.
  - apply IH. intros i. apply get_items_step in Hget as [Hstep _].
    by apply Hstep.
  - apply IH. by eapply mutation_keeps_agreement.
  - apply IH. by rewrite (local_mutation_Raise _ _ _ _ _ Him Hmut).
Qed.



End Agreement.

(** ** What a listing depends on *)

Section Frame.
Context `{Collaborators}.




Lemma reachable_same_mounts st st' a b :
  (forall i, _mounted_servers <$> (servers st' !! i)
             = _mounted_servers <$> (servers st !! i)) ->
  reachable st' a b -> reachable st a b.
Proof.
  intros Hm. induction 1 as [|i s' m _ IH Hs' Hin]; [constructor |].
  specialize (Hm i). rewrite Hs' in Hm. simpl in Hm.
  destruct (servers st !! i) as [s|] eqn:Hs; simpl in Hm; [| done].
  injection Hm as Hm. eapply reachable_mount; [done | done |]. by rewrite <- Hm.
Qed.


End Frame.

(** ** A mount is a live view *)

Section Live.
Context `{Collaborators}.






End Live.

(** ** Invalidation, import and mount *)

Section CompositionClaims.
Context `{Collaborators}.




End CompositionClaims.

(** * The properties at work on the small world *)

Section Witnesses.
Local Existing Instance Demo.collaborators.


Lemma prefix_round_trip_witness :
  MountedServer.strip_tool_prefix Demo.calc "calc_add" = "add"
  /\ MountedServer.match_tool Demo.calc "calc_add" = true
  /\ MountedServer.match_tool Demo.calc "add" = false.
Proof.
  pose proof (prefix_round_trip Demo.calc "add") as [(Hs & Hm & Hn) _].
  split; [exact Hs |]. split; [exact Hm |].
  apply Hn. intros [rest Hrest]. cbv in Hrest. discriminate Hrest.
Defined.

Lemma strip_unmatched_is_identity_witness :
  MountedServer.strip_tool_prefix Demo.calc "add" = "add"
  /\ MountedServer.strip_resource_prefix Demo.calc "weather://forecast"
     = "weather://forecast"
  /\ MountedServer.strip_prompt_prefix Demo.calc "greet" = "greet".
Proof.
  split; [| split].
  - apply (strip_unmatched_is_identity Demo.calc "add"). reflexivity.
  - apply (strip_unmatched_is_identity Demo.calc "weather://forecast"). reflexivity.
  - apply (strip_unmatched_is_identity Demo.calc "greet"). reflexivity.
Defined.

Lemma get_returns_stored_value_until_expiry_witness :
  let c := TimedCache.set (TimedCache.init 60) "tools" (None : option nat) 100%Z in
  TimedCache.get c "tools" 159%Z = TimedCache.Found None
  /\ TimedCache.get c "tools" 160%Z = TimedCache.NOT_FOUND
  /\ is_Some (TimedCache.cache c !! "tools").
Proof.
  intros c.
  pose proof (get_returns_stored_value_until_expiry
                (TimedCache.init 60) "tools" (None : option nat) 100%Z 159%Z)
    as (Hfresh & _).
  pose proof (get_returns_stored_value_until_expiry
                (TimedCache.init 60) "tools" (None : option nat) 100%Z 160%Z)
    as (_ & Hexpired & _).
  split.
  - apply Hfresh. reflexivity.
  - apply Hexpired. intros Hlt. vm_compute in Hlt. discriminate Hlt.
Defined.

Lemma dispatch_local_first_then_mounts_witness :
  _mcp_call_tool 2 None 0 "add" [] Demo.world = Some (Return "parent.add")
  /\ _mcp_call_tool 2 None 0 "calc_add" [] Demo.world
     = _mcp_call_tool 1 None 1 "add" [] Demo.world.
Proof.
  pose proof (dispatch_local_first_then_mounts 1 None 0 Demo.parent Demo.world eq_refl)
    as [Htool _].
  split.
  - apply (proj1 (Htool "add" []) "parent.add"). reflexivity.
  - apply (proj2 (Htool "calc_add" []) [] Demo.calc []).
    + reflexivity.
    + reflexivity.
    + constructor.
    + reflexivity.
Defined.

Lemma not_found_names_key_of_failing_registry_witness :
  _mcp_call_tool 1 None 0 "sub" [] Demo.world
  = Some (Raise (NotFoundError "Unknown tool: sub"))
  /\ _mcp_call_tool 2 None 0 "calc_sub" [] Demo.world
     = Some (Raise (NotFoundError "Unknown tool: sub")).
Proof.
  pose proof (not_found_names_key_of_failing_registry 0 None 0 Demo.parent Demo.world
                eq_refl) as [Htool _].
  split.
  - apply (proj1 (Htool "sub" [] eq_refl)).
    repeat constructor.
  - apply (proj2 (Htool "calc_sub" [] eq_refl) [] Demo.calc [] Demo.child).
    + reflexivity.
    + constructor.
    + reflexivity.
    + reflexivity.
    + reflexivity.
    + constructor.
Defined.

Lemma failing_read_raises_resource_error_witness :
  _mcp_read_resource 1 1 "file://bad" Demo.world
  = Some (Raise (ResourceError "disk on fire")).
Proof.
  apply (failing_read_raises_resource_error 0 1 Demo.child Demo.world "file://bad"
           "broken" Demo.disk_error); reflexivity.
Defined.

Lemma unmount_removes_binding_or_fails_witness :
  (exists st', unmount 0 "calc" Demo.world = Some (st', Return ()))
  /\ unmount 0 "nope" Demo.world = Some (Demo.world, Raise (KeyError "nope")).
Proof.
  pose proof (unmount_removes_binding_or_fails 0 Demo.parent Demo.world) as Hun.
  split.
  - destruct (proj1 (Hun "calc" eq_refl)) as (st' & self' & Hst & _).
    + exists Demo.calc. reflexivity.
    + by exists st'.
  - apply (proj2 (Hun "nope" eq_refl)). reflexivity.
Defined.




(** ** The scenarios of the specification *)

(** Server 0 has a local tool "add" and mounts server 1, which has a tool
    "add", under "calc": "add" runs the tool of server 0, "calc_add" is
    stripped to "add" and runs the tool of server 1; an unknown name that no
    binding matches is reported as it was given. *)
Example scenario_dispatch :
  _mcp_call_tool 2 None 0 "add" [] Demo.world = Some (Return "parent.add")
  /\ _mcp_call_tool 2 None 0 "calc_add" [] Demo.world = Some (Return "child.add")
  /\ _mcp_call_tool 2 None 0 "nope" [] Demo.world
     = Some (Raise (NotFoundError "Unknown tool: nope")).
Proof. repeat split; vm_compute; reflexivity. Qed.

(** Server 1 lists the resource "weather://forecast"; after server 0 has
    imported it under "ext", server 0 has the local resource
    "ext+weather://forecast", and a tool added to server 1 afterwards is not
    listed by server 0 under the import prefix. *)
Example scenario_import :
  import_server 2 0 "ext" 1 None None None 0%Z Demo.world
  = Some (Demo.imported, Return ())
  /\ local_at Resources 0 Demo.imported ≫= (fun items => items !! "ext+weather://forecast")
     = Some "forecast"
  /\ (snd <$> get_tools 2 0 1%Z (Demo.state_after (mutate Demo.add_sub 1 Demo.imported)))
       ≫= (fun items => items !! "ext_sub")
     = None.
Proof. repeat split; vm_compute; reflexivity. Qed.

(** An import that a duplicate rejection stops midway has written the
    entries of the categories before it and has cleared no cache: the tool
    copied from server 1 is in the local registry of server 2, and the
    listing of server 2 within the expiration is the cached one, without
    it.  The properties of mutations above are about calls that run to their
    end. *)
Example aborted_import_clears_nothing :
  import_server 2 2 "ext" 1 None None None 1%Z Demo.strict_listed
  = Some (Demo.strict_aborted, Raise (DuplicateError "ext_greet"))
  /\ local_at Tools 2 Demo.strict_aborted ≫= (fun items => items !! "ext_add")
     = Some "child.add"
  /\ forallb (fun ev => negb (is_cache_clear ev)) (cache_events Demo.strict_aborted)
     = true
  /\ (snd <$> get_tools 1 2 2%Z Demo.strict_aborted)
       ≫= (fun items => items !! "ext_add")
     = None.
Proof. repeat split; vm_compute; reflexivity. Qed.

(** ** Where the code departs from C2, C3 and C6 *)



(** C6 fails on the code.  Server 0 has no tool "calc_sub", its binding
    "calc" matches the key, and server 1 has no tool "sub": the error names
    "sub", the stripped key, not the key the caller supplied.  Resources and
    prompts behave alike. *)
Lemma nested_not_found_names_stripped_key :
  MountedServer.match_tool Demo.calc "calc_sub" = true
  /\ _mcp_call_tool 2 None 0 "calc_sub" [] Demo.world
     = Some (Raise (NotFoundError "Unknown tool: sub"))
  /\ _mcp_call_tool 2 None 0 "calc_sub" [] Demo.world
     <> Some (Raise (NotFoundError "Unknown tool: calc_sub"))
  /\ _mcp_read_resource 2 0 "calc+file://none" Demo.world
     = Some (Raise (NotFoundError "Unknown resource: file://none"))
  /\ _mcp_get_prompt 2 0 "calc_bye" None Demo.world
     = Some (Raise (NotFoundError "Unknown prompt: bye")).
Proof.
  split; [reflexivity |].
  split; [vm_compute; reflexivity |].
  split; [vm_compute; discriminate |].
  split; vm_compute; reflexivity.
Qed.

End Witnesses.

(** * Further properties of the code *)

(** ** TimedCache as a store *)

Section CacheStore.
Context {V : Type}.
Implicit Types (c : TimedCache.t V) (key : string) (v : V).

(** X1 (the cache is a per-key store).  A [set] on one key leaves the reads
    of every other key as they were; a second [set] on the same key replaces
    the first altogether, value and expiry; after [clear] every key reads
    as absent, at any time, and the configured expiration is kept. *)
Theorem cache_is_a_per_key_store c key v (stored : Time) :
  (forall key' now, key' <> key ->
     TimedCache.get (TimedCache.set c key v stored) key' now = TimedCache.get c key' now)
  /\ (forall v0 stored0,
        TimedCache.set (TimedCache.set c key v0 stored0) key v stored
        = TimedCache.set c key v stored)
  /\ (forall key' now, TimedCache.get (TimedCache.clear c) key' now = TimedCache.NOT_FOUND)
  /\ TimedCache.expiration (TimedCache.clear c) = TimedCache.expiration c
  /\ TimedCache.expiration (TimedCache.set c key v stored) = TimedCache.expiration c.
Proof.
  split; [| split; [| split; [| done]]].
  - intros key' now Hne. unfold TimedCache.get, TimedCache.set; simpl.
    by rewrite lookup_insert_ne.
  - intros v0 stored0. unfold TimedCache.set; simpl. by rewrite insert_insert_eq.
  - intros key' now. unfold TimedCache.get, TimedCache.clear; simpl.
    by rewrite lookup_empty.
Qed.

(** X2 (an expiration that is not positive disables the cache).  When the
    configured expiration is zero or negative and the clock does not run
    backwards, a value is never read back: every [get] at or after the [set]
    returns the sentinel. *)
Theorem nonpositive_expiration_never_hits c key v (stored now : Time) :
  (TimedCache.expiration c <= 0)%Z ->
  (stored <= now)%Z ->
  TimedCache.get (TimedCache.set c key v stored) key now = TimedCache.NOT_FOUND.
Proof.
  intros Hexp Hclock. rewrite get_after_set.
  rewrite bool_decide_eq_false_2; [done | lia].
Qed.

End CacheStore.

(** ** MountedServer: strip undoes the prefix *)

Section Strip.
Implicit Types (p s key : string).

Lemma length_append p s :
  String.length (p +:+ s) = String.length p + String.length s.
Proof.
  induction p as [|c p IH]; [done |]. rewrite append_cons; simpl. by rewrite IH.
Qed.

Lemma startswith_recompose key p :
  Py.startswith key p = true -> p +:+ Py.removeprefix key p = key.
Proof.
  intros (rest & ->)%startswith_split. by rewrite removeprefix_app.
Qed.

Lemma removeprefix_length key p :
  String.length (Py.removeprefix key p) <= String.length key.
Proof.
  destruct (Py.startswith key p) eqn:Hs.
  - rewrite <- (startswith_recompose _ _ Hs) at 2. rewrite length_append. lia.
  - by rewrite removeprefix_no_match.
Qed.

Lemma removeprefix_shorter key p :
  Py.startswith key p = true -> p <> "" ->
  String.length (Py.removeprefix key p) < String.length key.
Proof.
  intros Hs Hp. rewrite <- (startswith_recompose _ _ Hs) at 2.
  rewrite length_append. destruct p; [done |]. simpl. lia.
Qed.

(** X3 (strip undoes the prefix).  For each of the three match and strip
    pairs: on a key that matches, the prefix and the separator followed by
    the stripped key give the key back; and whether the key matches or not,
    the stripped key is never longer than the key. *)
Theorem match_then_strip_recomposes (m : MountedServer.t) (key : string) :
  (MountedServer.match_tool m key = true ->
     MountedServer.prefix m +:+ MountedServer.tool_separator m
       +:+ MountedServer.strip_tool_prefix m key = key)
  /\ (MountedServer.match_resource m key = true ->
        MountedServer.prefix m +:+ MountedServer.resource_separator m
          +:+ MountedServer.strip_resource_prefix m key = key)
  /\ (MountedServer.match_prompt m key = true ->
        MountedServer.prefix m +:+ MountedServer.prompt_separator m
          +:+ MountedServer.strip_prompt_prefix m key = key)
  /\ String.length (MountedServer.strip_tool_prefix m key) <= String.length key
  /\ String.length (MountedServer.strip_resource_prefix m key) <= String.length key
  /\ String.length (MountedServer.strip_prompt_prefix m key) <= String.length key.
Proof.
  unfold MountedServer.match_tool, MountedServer.match_resource,
    MountedServer.match_prompt, MountedServer.strip_tool_prefix,
    MountedServer.strip_resource_prefix, MountedServer.strip_prompt_prefix.
  repeat split; try apply removeprefix_length;
    intros Hm; rewrite <- app_assoc_string; by apply startswith_recompose.
Qed.

End Strip.

(** ** The view of a mounted server *)

Section MountedView.
Context `{Collaborators}.

Lemma kmap_append_assoc p s (items : gmap string Item) :
  (kmap (String.append (p +:+ s)) items : gmap string Item)
  = kmap (fun key => p +:+ s +:+ key) items.
Proof.
  apply map_eq. intros K. apply option_eq. intros v.
  rewrite (lookup_kmap_Some (String.append (p +:+ s))).
  rewrite (lookup_kmap_Some (fun key => p +:+ s +:+ key)).
  split; intros (i & -> & Hi); exists i; (split; [| done]).
  - apply app_assoc_string.
  - symmetry. apply app_assoc_string.
Qed.

Lemma prefixed_size cat m (src : gmap string Item) :
  size (prefixed cat m src) = size src.
Proof.
  unfold prefixed, kmap. rewrite map_size_list_to_map.
  - by rewrite length_fmap, length_map_to_list.
  - rewrite <- list_fmap_compose.
    rewrite (list_fmap_ext _
               ((fun key => MountedServer.prefix m +:+ separator cat m +:+ key) ∘ fst)
               (map_to_list src)) by (by intros ? []).
    rewrite list_fmap_compose. apply NoDup_fmap_2; [apply _ |].
    apply NoDup_fst_map_to_list.
Qed.

(** X4 (a mounted view loses nothing and invents nothing).  What
    [MountedServer.get_tools] and its three siblings return is the listing
    of the target with every key prefixed: an entry is in the view exactly
    when it is the prefixed form of an entry of the target's listing, with
    the same item; the view has as many entries as that listing; and every
    key of the view matches the binding. *)
Theorem mounted_view_is_prefixed_listing fuel cat m now st st' items :
  MountedServer_get_items (fun target => get_items fuel cat target now) cat m st
    = Some (st', items) ->
  exists src,
    get_items fuel cat (MountedServer.server m) now st = Some (st', src)
    /\ (forall K item,
          items !! K = Some item
          <-> exists k, K = MountedServer.prefix m +:+ separator cat m +:+ k
                        /\ src !! k = Some item)
    /\ size items = size src
    /\ (forall K, is_Some (items !! K) ->
          Py.startswith K (MountedServer.prefix m +:+ separator cat m) = true).
Proof.
  intros (src & Hget & ->)%MountedServer_get_items_inv.
  exists src. split; [done |].
  assert (Hiff : forall K item,
    prefixed cat m src !! K = Some item
    <-> exists k, K = MountedServer.prefix m +:+ separator cat m +:+ k
                  /\ src !! k = Some item).
  { intros K item. unfold prefixed.
    apply (lookup_kmap_Some
             (fun key => MountedServer.prefix m +:+ separator cat m +:+ key)). }
  split; [done |]. split; [apply prefixed_size |].
  intros K [item (k & -> & _)%Hiff].
  rewrite <- app_assoc_string. apply startswith_app.
Qed.

(** X5 (import names entries as a mount does).  An import that runs to its
    end has updated each local registry of the importer with exactly what a
    binding with the same prefix and separators lists
    ([MountedServer.get_tools] and its siblings) on the store and at the
    time of the call: importing a server and mounting it make its entries
    known under the same keys. *)
Theorem import_writes_the_mounted_view fuel dst prefix src ts rs ps now st st' :
  import_server fuel dst prefix src ts rs ps now st = Some (st', Return ()) ->
  forall cat, exists st_b view,
    MountedServer_get_items (fun target => get_items fuel cat target now) cat
      (MountedServer.init prefix src ts rs ps) st = Some (st_b, view)
    /\ local_at cat dst st' = (fun l => Py.update l view) <$> local_at cat dst st.
Proof.
  intros (Hcopy & _)%import_server_Return cat.
  destruct (Hcopy cat) as (st_b & listing & Hget & Hlocal).
  exists st_b, (prefixed cat (MountedServer.init prefix src ts rs ps) listing).
  split; [by apply MountedServer_get_items_Some |].
  rewrite Hlocal. unfold prefixed.
  by destruct cat; simpl; rewrite kmap_append_assoc.
Qed.

End MountedView.

(** ** Mounting and unmounting *)

Section MountUnmount.
Context `{Collaborators}.

Lemma od_remove_unknown {V} k (d : Py.odict V) :
  Py.od_get k d = None -> Py.od_remove k d = d.
Proof.
  induction d as [|[k' v] d IH]; [done |]. simpl.
  destruct (decide (k' = k)) as [->|Hne]; [done |].
  intros Hd. unfold Py.od_remove in *. rewrite filter_cons; simpl.
  rewrite decide_True by done. by rewrite IH.
Qed.

Lemma od_remove_set_fresh {V} k (v : V) (d : Py.odict V) :
  Py.od_get k d = None -> Py.od_remove k (Py.od_set k v d) = d.
Proof.
  induction d as [|[k' v'] d IH]; simpl.
  - intros _. unfold Py.od_remove. rewrite filter_cons; simpl.
    by rewrite decide_False by (by intros ?).
  - destruct (decide (k' = k)) as [->|Hne]; [done |].
    intros Hd. unfold Py.od_remove in *. rewrite filter_cons; simpl.
    rewrite decide_True by done. by rewrite IH.
Qed.

Lemma od_set_set {V} k (v1 v2 : V) (d : Py.odict V) :
  Py.od_set k v2 (Py.od_set k v1 d) = Py.od_set k v2 d.
Proof.
  induction d as [|[k' v'] d IH]; simpl.
  - by rewrite decide_True.
  - destruct (decide (k' = k)) as [->|Hne]; simpl.
    + by rewrite decide_True.
    + rewrite decide_False by done. by rewrite IH.
Qed.

(** X6 (mount and unmount compose).  Mounting under a prefix that is not
    mounted and unmounting that prefix again gives back the registry as it
    was, mount dictionary, order and managers, with an empty cache, and
    touches no other server.  Mounting twice under one prefix leaves the
    mount dictionary the second mount alone would leave: the later binding
    replaces the earlier one. *)
Theorem mount_then_unmount_restores sid self st prefix tgt ts rs ps :
  servers st !! sid = Some self ->
  (Py.od_get prefix (_mounted_servers self) = None ->
   exists st1 st2 self2,
     mount sid prefix tgt ts rs ps st = Some (st1, Return ())
     /\ unmount sid prefix st1 = Some (st2, Return ())
     /\ servers st2 !! sid = Some self2
     /\ registry_of self2 = registry_of self
     /\ TimedCache.cache (_cache self2) = ∅
     /\ forall i, i <> sid -> servers st2 !! i = servers st !! i)
  /\ (forall tgt' ts' rs' ps', exists st1 st2 self2,
        mount sid prefix tgt ts rs ps st = Some (st1, Return ())
        /\ mount sid prefix tgt' ts' rs' ps' st1 = Some (st2, Return ())
        /\ servers st2 !! sid = Some self2
        /\ _mounted_servers self2
           = Py.od_set prefix (MountedServer.init prefix tgt' ts' rs' ps')
               (_mounted_servers self)).
Proof.
  intros Hs. split.
  - intros Hfresh. unfold mount, unmount, finished. rewrite Hs; simpl.
    rewrite cache_clear_set_server; simpl.
    eexists _, _, _. split; [done |]. simpl. rewrite lookup_insert_eq; simpl.
    unfold Py.od_pop. rewrite od_get_set_eq.
    rewrite cache_clear_set_server; simpl.
    split; [done |]. simpl. rewrite lookup_insert_eq.
    split; [done |]. split.
    + unfold registry_of; simpl. by rewrite od_remove_set_fresh.
    + split; [done |]. intros i Hi. by rewrite !lookup_insert_ne.
  - intros tgt' ts' rs' ps'. unfold mount, finished. rewrite Hs; simpl.
    rewrite cache_clear_set_server; simpl.
    eexists _, _, _. split; [done |]. simpl. rewrite lookup_insert_eq; simpl.
    rewrite cache_clear_set_server; simpl.
    split; [done |]. simpl. rewrite lookup_insert_eq.
    split; [done |]. simpl. apply od_set_set.
Qed.

End MountUnmount.

(** ** Dispatch and the caches *)

Section DispatchAndCaches.
Context `{Collaborators}.

Lemma for_else_ext {R} matches (body body' : MountedServer.t -> R) orelse mounts :
  (forall m, m ∈ mounts -> body m = body' m) ->
  for_else matches body orelse mounts = for_else matches body' orelse mounts.
Proof.
  induction mounts as [|m mounts IH]; intros Hext; simpl; [done |].
  rewrite (Hext m) by left. rewrite IH; [done |].
  intros m' Hm'. apply Hext. by right.
Qed.

Lemma same_registries_cases st st' i :
  same_registries st st' ->
  (servers st !! i = None /\ servers st' !! i = None)
  \/ exists s s', servers st !! i = Some s /\ servers st' !! i = Some s'
                  /\ registry_of s' = registry_of s.
Proof.
  intros Hsame. destruct (servers st !! i) as [s|] eqn:Hs.
  - destruct (same_registries_lookup _ _ _ _ Hsame Hs) as (s' & Hs' & Hreg).
    right. by exists s, s'.
  - left. split; [done |]. specialize (Hsame i). rewrite Hs in Hsame.
    by destruct (servers st' !! i).
Qed.

(** X7 (dispatch reads no cache).  Calling a tool, reading a resource and
    getting a prompt depend on the managers and mount dictionaries only:
    two stores that differ in nothing but the contents of caches give the
    same outcome, for every server, key and fuel.  A listing may be stale,
    a dispatch is not. *)
Theorem dispatch_reads_no_cache st st' :
  same_registries st st' ->
  (forall fuel request sid key arguments,
     _mcp_call_tool fuel request sid key arguments st'
     = _mcp_call_tool fuel request sid key arguments st)
  /\ (forall fuel sid uri,
        _mcp_read_resource fuel sid uri st' = _mcp_read_resource fuel sid uri st)
  /\ (forall fuel sid name arguments,
        _mcp_get_prompt fuel sid name arguments st'
        = _mcp_get_prompt fuel sid name arguments st).
Proof.
  intros Hsame. split; [| split].
  - intros fuel request. induction fuel as [|fuel IH]; intros sid key arguments;
      [done |]. simpl.
    destruct (same_registries_cases _ _ sid Hsame)
      as [[-> ->] | (s & s' & -> & -> & Hreg)]; [done |]. simpl.
    unfold registry_of in Hreg. injection Hreg as Hm Ht Hr Hp _.
    rewrite Ht, Hm. destruct (ToolManager_has_tool _ _); [done |].
    apply for_else_ext. intros m _. apply IH.
  - intros fuel. induction fuel as [|fuel IH]; intros sid uri; [done |]. simpl.
    destruct (same_registries_cases _ _ sid Hsame)
      as [[-> ->] | (s & s' & -> & -> & Hreg)]; [done |]. simpl.
    unfold registry_of in Hreg. injection Hreg as Hm Ht Hr Hp _.
    rewrite Hr, Hm. destruct (ResourceManager_has_resource _ _); [done |].
    apply for_else_ext. intros m _. apply IH.
  - intros fuel. induction fuel as [|fuel IH]; intros sid name arguments;
      [done |]. simpl.
    destruct (same_registries_cases _ _ sid Hsame)
      as [[-> ->] | (s & s' & -> & -> & Hreg)]; [done |]. simpl.
    unfold registry_of in Hreg. injection Hreg as Hm Ht Hr Hp _.
    rewrite Hp, Hm. destruct (PromptManager_has_prompt _ _); [done |].
    apply for_else_ext. intros m _. apply IH.
Qed.

(** X8 (a listed key of a mount reaches the item of the target).  When a
    registry has no local tool under the prefixed key of a tool of a mounted
    server, and no binding before that one matches the key, calling the key
    runs that tool, with the stripped key and with a context that refers to
    the server that owns the tool, not to the one that was called.
    Resources and prompts of a mounted server are reached alike. *)
Theorem mounted_item_is_reached fuel request dst self st before m after tgt k :
  servers st !! dst = Some self ->
  Py.od_values (_mounted_servers self) = before ++ m :: after ->
  servers st !! MountedServer.server m = Some tgt ->
  (forall tool arguments,
     let K := MountedServer.prefix m +:+ MountedServer.tool_separator m +:+ k in
     _tools (_tool_manager self) !! K = None ->
     Forall (fun m' => MountedServer.match_tool m' K = false) before ->
     _tools (_tool_manager tgt) !! k = Some tool ->
     _mcp_call_tool (S (S fuel)) request dst K arguments st
     = Some (item_outcome
               (Tool_run tool arguments (MakeContext request (MountedServer.server m)))))
  /\ (forall resource,
        let K := MountedServer.prefix m +:+ MountedServer.resource_separator m +:+ k in
        _resources (_resource_manager self) !! K = None ->
        Forall (fun m' => MountedServer.match_resource m' K = false) before ->
        _resources (_resource_manager tgt) !! k = Some resource ->
        _mcp_read_resource (S (S fuel)) dst K st = Some (read_local resource))
  /\ (forall prompt arguments,
        let K := MountedServer.prefix m +:+ MountedServer.prompt_separator m +:+ k in
        _prompts (_prompt_manager self) !! K = None ->
        Forall (fun m' => MountedServer.match_prompt m' K = false) before ->
        _prompts (_prompt_manager tgt) !! k = Some prompt ->
        _mcp_get_prompt (S (S fuel)) dst K arguments st
        = Some (render_local prompt arguments)).
Proof.
  intros Hs Hmounts Ht.
  pose proof (prefix_strip := fun sep =>
    removeprefix_app (MountedServer.prefix m +:+ sep) k).
  pose proof (prefix_match := fun sep =>
    startswith_app (MountedServer.prefix m +:+ sep) k).
  split; [| split].
  - intros tool arguments K Hnone Hbefore Htool.
    erewrite call_tool_mounts by done. rewrite Hmounts.
    rewrite for_else_first_match; [| done |].
    + unfold MountedServer.strip_tool_prefix, K.
      rewrite <- app_assoc_string, prefix_strip.
      by eapply call_tool_local.
    + unfold MountedServer.match_tool, K. rewrite <- app_assoc_string.
      apply prefix_match.
  - intros resource K Hnone Hbefore Hres.
    erewrite read_resource_mounts by done. rewrite Hmounts.
    rewrite for_else_first_match; [| done |].
    + unfold MountedServer.strip_resource_prefix, K.
      rewrite <- app_assoc_string, prefix_strip.
      by eapply read_resource_local.
    + unfold MountedServer.match_resource, K. rewrite <- app_assoc_string.
      apply prefix_match.
  - intros prompt arguments K Hnone Hbefore Hprompt.
    erewrite get_prompt_mounts by done. rewrite Hmounts.
    rewrite for_else_first_match; [| done |].
    + unfold MountedServer.strip_prompt_prefix, K.
      rewrite <- app_assoc_string, prefix_strip.
      by eapply get_prompt_local.
    + unfold MountedServer.match_prompt, K. rewrite <- app_assoc_string.
      apply prefix_match.
Qed.

End DispatchAndCaches.

(** ** Recursion through mounts *)

Section Recursion.
Context `{Collaborators}.

Lemma for_else_is_Some {R} matches (body : MountedServer.t -> option R) orelse
    mounts :
  is_Some orelse ->
  (forall m, m ∈ mounts -> matches m = true -> is_Some (body m)) ->
  is_Some (for_else matches body orelse mounts).
Proof.
  intros Helse. induction mounts as [|m mounts IH]; intros Hbody; simpl; [done |].
  destruct (matches m) eqn:Hm.
  - apply Hbody; [left | done].
  - apply IH. intros m' Hm'. apply Hbody. by right.
Qed.

(** X9 (a dispatch returns within the length of its key).  In a store whose
    mounts point at existing servers and where no binding has both an empty
    prefix and an empty separator, calling a tool, reading a resource and
    getting a prompt return, whatever the shape of the mount graph, cycles
    included: every step into a mount strips at least one character, so the
    recursion is no deeper than the key is long. *)
Theorem dispatch_returns_within_key_length st :
  closed_store st ->
  (prefixes_nonempty MountedServer.tool_separator st ->
   forall fuel request sid key arguments,
     is_Some (servers st !! sid) -> String.length key < fuel ->
     is_Some (_mcp_call_tool fuel request sid key arguments st))
  /\ (prefixes_nonempty MountedServer.resource_separator st ->
      forall fuel sid uri,
        is_Some (servers st !! sid) -> String.length uri < fuel ->
        is_Some (_mcp_read_resource fuel sid uri st))
  /\ (prefixes_nonempty MountedServer.prompt_separator st ->
      forall fuel sid name arguments,
        is_Some (servers st !! sid) -> String.length name < fuel ->
        is_Some (_mcp_get_prompt fuel sid name arguments st)).
Proof.
  intros Hclosed. split; [| split].
  - intros Hne fuel request.
    induction fuel as [|fuel IH]; intros sid key arguments [self Hs] Hlen; [lia |].
    simpl. rewrite Hs; simpl.
    destruct (ToolManager_has_tool _ _); [done |].
    apply for_else_is_Some; [done |]. intros m Hm Hmatch.
    apply IH; [by eapply Hclosed |].
    pose proof (removeprefix_shorter key _ Hmatch (Hne _ _ _ Hs Hm)) as Hlt.
    unfold MountedServer.strip_tool_prefix. lia.
  - intros Hne fuel.
    induction fuel as [|fuel IH]; intros sid uri [self Hs] Hlen; [lia |].
    simpl. rewrite Hs; simpl.
    destruct (ResourceManager_has_resource _ _) eqn:Hhas.
    + unfold ResourceManager_has_resource in Hhas.
      apply bool_decide_eq_true_1 in Hhas as [resource Hres].
      unfold ResourceManager_get_resource. rewrite Hres.
      destruct (Resource_read resource) as [c|e]; [done |].
      by destruct (isinstance_Exception e).
    + apply for_else_is_Some; [done |]. intros m Hm Hmatch.
      apply IH; [by eapply Hclosed |].
      pose proof (removeprefix_shorter uri _ Hmatch (Hne _ _ _ Hs Hm)) as Hlt.
      unfold MountedServer.strip_resource_prefix. lia.
  - intros Hne fuel.
    induction fuel as [|fuel IH]; intros sid name arguments [self Hs] Hlen; [lia |].
    simpl. rewrite Hs; simpl.
    destruct (PromptManager_has_prompt _ _).
    + by destruct (PromptManager_render_prompt _ _ _).
    + apply for_else_is_Some; [done |]. intros m Hm Hmatch.
      apply IH; [by eapply Hclosed |].
      pose proof (removeprefix_shorter name _ Hmatch (Hne _ _ _ Hs Hm)) as Hlt.
      unfold MountedServer.strip_prompt_prefix. lia.
Qed.

(** X10 (a transparent mount of oneself never answers an unknown key).  A
    binding with an empty prefix and an empty separator matches every key
    and strips nothing; when it points back at the server that holds it and
    is the first binding to match, calling a tool that server does not have
    recurses with the same key for ever: no amount of fuel gives a
    result. *)
Theorem transparent_self_mount_never_returns request sid self st before m after
    key arguments :
  servers st !! sid = Some self ->
  _tools (_tool_manager self) !! key = None ->
  Py.od_values (_mounted_servers self) = before ++ m :: after ->
  Forall (fun m' => MountedServer.match_tool m' key = false) before ->
  MountedServer.server m = sid ->
  MountedServer.prefix m +:+ MountedServer.tool_separator m = "" ->
  forall fuel, _mcp_call_tool fuel request sid key arguments st = None.
Proof.
  intros Hs Hnone Hmounts Hbefore Hself Hempty fuel.
  induction fuel as [|fuel IH]; [done |].
  erewrite call_tool_mounts by done. rewrite Hmounts.
  rewrite for_else_first_match; [| done |].
  - unfold MountedServer.strip_tool_prefix. rewrite Hempty, Hself.
    exact IH.
  - unfold MountedServer.match_tool. by rewrite Hempty.
Qed.

Lemma stuck_cycle_step C cat now fuel :
  forall sid st st' items,
    stuck_cycle C cat now st ->
    get_items fuel cat sid now st = Some (st', items) ->
    ~ C sid /\ stuck_cycle C cat now st'.
Proof.
  induction fuel as [|fuel IH]; intros sid st st' items Hstuck; [done |].
  simpl. destruct (servers st !! sid) as [self|] eqn:Hs; simpl; [| done].
  destruct (TimedCache.get (_cache self) (cache_key cat) now) as [hit|] eqn:Hget.
  { intros [= <- <-]. split; [| done].
    intros (self0 & Hs0 & Hmiss & _)%Hstuck. congruence. }
  unfold compute_items. rewrite Hs; simpl.
  assert (Hloop : forall mounts s0 acc s1 res,
    stuck_cycle C cat now s0 ->
    update_from_mounts
      (MountedServer_get_items (fun target => get_items fuel cat target now) cat)
      mounts s0 acc = Some (s1, res) ->
    stuck_cycle C cat now s1
    /\ forall m, m ∈ mounts -> ~ C (MountedServer.server m)).
  { induction mounts as [|m mounts IHm]; intros s0 acc s1 res Hst0.
    - simpl. intros [= <- <-]. split; [done |]. intros m Hm.
      by apply elem_of_nil in Hm.
    - intros (s0a & its & Hm1 & Hrest)%update_from_mounts_cons_inv.
      apply MountedServer_get_items_inv in Hm1 as (src & Hrec & ->).
      destruct (IH _ _ _ _ Hst0 Hrec) as [Hnot Hst0a].
      destruct (IHm _ _ _ _ Hst0a Hrest) as [Hst1 Hall].
      split; [done |]. intros m' [-> | Hm']%elem_of_cons; [done | by apply Hall]. }
  destruct (update_from_mounts _ _ st ∅) as [[st1 acc]|] eqn:Hl; simpl; [| done].
  destruct (Hloop _ _ _ _ _ Hstuck Hl) as [Hst1 Hall].
  assert (Hnot : ~ C sid).
  { intros (self0 & Hs0 & _ & m & Hm & HC)%Hstuck.
    rewrite Hs in Hs0. injection Hs0 as <-. by apply (Hall m). }
  destruct (servers st1 !! sid) as [self1|] eqn:Hs1; simpl; [| done].
  unfold cache_set. rewrite Hs1; simpl. intros [= <- <-].
  split; [done |]. intros c Hc; simpl.
  rewrite lookup_insert_ne by (by intros ->). by apply Hst1.
Qed.

(** X11 (a listing never returns on a mount cycle).  Listing has no guard
    against cycles: when every server of a set misses its cache for the
    category and mounts a server of the set (a server that mounts itself,
    two servers that mount each other), a listing call on any of them does
    not come back, whatever the fuel. *)
Theorem listing_never_returns_on_cycle C cat now st sid :
  stuck_cycle C cat now st ->
  C sid ->
  forall fuel, get_items fuel cat sid now st = None.
Proof.
  intros Hstuck HC fuel.
  destruct (get_items fuel cat sid now st) as [[st' items]|] eqn:Hget; [| done].
  by destruct (stuck_cycle_step _ _ _ _ _ _ _ _ Hstuck Hget) as [Hnot _].
Qed.

End Recursion.

(** ** Listings: memoization and provenance *)

Section ListingMore.
Context `{Collaborators}.





(** X14 (a fresh server is empty).  On a server as [__init__] leaves it,
    every listing made at a time when [TimedCache.set] returns (the clock
    plus the expiration is within the range of [datetime]) returns the empty
    dictionary; and, whatever the settings, calling a tool, reading a
    resource or getting a prompt raises the not-found error that names the
    key as given. *)
Theorem fresh_server_is_empty st sid expiration dt dr dp :
  servers st !! sid = Some (FastMCP_init expiration dt dr dp) ->
  (forall cat fuel now,
     TimedCache.set_returns (_cache (FastMCP_init expiration dt dr dp)) now = true ->
     exists st', get_items (S fuel) cat sid now st = Some (st', ∅))
  /\ (forall fuel request key arguments,
        _mcp_call_tool (S fuel) request sid key arguments st
        = Some (Raise (NotFoundError ("Unknown tool: " +:+ key))))
  /\ (forall fuel uri,
        _mcp_read_resource (S fuel) sid uri st
        = Some (Raise (NotFoundError ("Unknown resource: " +:+ uri))))
  /\ (forall fuel name arguments,
        _mcp_get_prompt (S fuel) sid name arguments st
        = Some (Raise (NotFoundError ("Unknown prompt: " +:+ name)))).
Proof.
  intros Hs. split; [| split; [| split]].
  - intros cat fuel now _. simpl. rewrite Hs; simpl.
    unfold compute_items. rewrite Hs; simpl. rewrite Hs; simpl.
    unfold cache_set. rewrite Hs; simpl.
    eexists. f_equal. f_equal. unfold Py.update.
    destruct cat; simpl; by rewrite (left_id_L ∅ (∪)).
  - intros fuel request key arguments.
    by erewrite call_tool_mounts by (done || apply lookup_empty).
  - intros fuel uri.
    by erewrite read_resource_mounts by (done || apply lookup_empty).
  - intros fuel name arguments.
    by erewrite get_prompt_mounts by (done || apply lookup_empty).
Qed.

End ListingMore.

(** ** Mutations that raise *)

Section Refusals.
Context `{Collaborators}.

(** X15 (a refused mutation writes nothing).  When [add_tool],
    [add_resource], [add_resource_fn], [add_prompt] or [unmount] raises, the
    store is exactly as before the call: no registry is written and no cache
    is cleared; the error of [unmount] is the [KeyError] of the missing
    prefix; and [mount] never raises. *)
Theorem refused_mutation_writes_nothing m sid st st' e :
  is_import m = false ->
  mutate m sid st = Some (st', Raise e) ->
  st' = st
  /\ (forall prefix, m = Unmount prefix -> e = KeyError prefix)
  /\ (forall prefix server ts rs ps, m <> Mount prefix server ts rs ps).
Proof.
  intros Him Hmut. split; [by eapply local_mutation_Raise |]. split.
  - intros prefix ->. simpl in Hmut. unfold unmount, finished in Hmut.
    destruct (servers st !! sid) as [self|]; simpl in Hmut; [| done].
    destruct (Py.od_pop prefix (_mounted_servers self)) as [[? ?]|];
      [| by injection Hmut as _ <-].
    by rewrite cache_clear_set_server in Hmut.
  - intros prefix server ts rs ps ->. simpl in Hmut. unfold mount, finished in Hmut.
    destruct (servers st !! sid) as [self|]; simpl in Hmut; [| done].
    by rewrite cache_clear_set_server in Hmut.
Qed.

End Refusals.

(** ** The list handlers *)

Section HandlerProperties.
Context `{Collaborators}.
Context {Descriptor : Type} (to_mcp : Item -> string -> Descriptor).

(** X16 (descriptors carry the listed keys).  A list handler returns one
    descriptor for each entry of the listing of its category, built from the
    item and from the key it is listed under, so that an item of a mounted
    server is described under its prefixed key; in a store whose caches
    agree with the local registries, the descriptor of every local item
    under its own key is among them. *)
Theorem list_handler_describes_listing fuel cat sid now st st' descriptors :
  _mcp_list_items to_mcp fuel cat sid now st = Some (st', descriptors) ->
  exists items,
    get_items fuel cat sid now st = Some (st', items)
    /\ length descriptors = size items
    /\ (forall d, d ∈ descriptors
                  <-> exists key item, items !! key = Some item /\ d = to_mcp item key)
    /\ (cache_agrees_with_local st sid ->
        forall self key item,
          servers st !! sid = Some self ->
          local_items cat self !! key = Some item ->
          to_mcp item key ∈ descriptors).
Proof.
  unfold _mcp_list_items.
  destruct (get_items fuel cat sid now st) as [[st1 items]|] eqn:Hget; simpl; [| done].
  intros [= <- <-]. exists items. split; [done |].
  assert (Hin : forall d,
    d ∈ (fun entry : string * Item => to_mcp entry.2 entry.1) <$> map_to_list items
    <-> exists key item, items !! key = Some item /\ d = to_mcp item key).
  { intros d. rewrite list_elem_of_fmap. split.
    - intros ([key item] & -> & Hentry%elem_of_map_to_list). by exists key, item.
    - intros (key & item & Hentry & ->). exists (key, item).
      split; [done |]. by apply elem_of_map_to_list. }
  split; [by rewrite length_fmap, length_map_to_list |]. split; [done |].
  intros Hag self key item Hs Hlocal. apply Hin. exists key, item.
  split; [| done].
  apply get_items_step in Hget as [_ Hsub].
  eapply map_subseteq_spec; [by apply Hsub | done].
Qed.

End HandlerProperties.

(** ** What a listing and a registration leave behind *)

Section Effects.
Context `{Collaborators}.

Lemma reachable_trans st a b c :
  reachable st a b -> reachable st b c -> reachable st a c.
Proof.
  intros Hab Hbc. induction Hbc as [|i s m _ IH Hs Hm]; [done |].
  by eapply reachable_mount.
Qed.

Lemma reachable_same_registries st st' a b :
  same_registries st st' -> reachable st' a b -> reachable st a b.
Proof.
  intros Hsame. apply reachable_same_mounts.
  intros i. apply fmap_registry_mounts, Hsame.
Qed.

Lemma get_items_confined fuel cat now :
  forall sid st st' items,
    get_items fuel cat sid now st = Some (st', items) ->
    forall i, ~ reachable st sid i -> servers st' !! i = servers st !! i.
Proof.
  induction fuel as [|fuel IH]; intros sid st st' items; [done |].
  simpl. destruct (servers st !! sid) as [self|] eqn:Hs; simpl; [| done].
  destruct (TimedCache.get (_cache self) (cache_key cat) now) as [hit|].
  { by intros [= <- <-]. }
  unfold compute_items. rewrite Hs; simpl.
  assert (Hloop : forall mounts s0 acc s1 res,
    same_registries st s0 ->
    (forall m, m ∈ mounts -> m ∈ Py.od_values (_mounted_servers self)) ->
    update_from_mounts
      (MountedServer_get_items (fun target => get_items fuel cat target now) cat)
      mounts s0 acc = Some (s1, res) ->
    same_registries st s1
    /\ forall i, ~ reachable st sid i -> servers s1 !! i = servers s0 !! i).
  { induction mounts as [|m mounts IHm]; intros s0 acc s1 res Hsame Hsub.
    - simpl. by intros [= <- <-].
    - intros (s0a & its & Hm1 & Hrest)%update_from_mounts_cons_inv.
      apply MountedServer_get_items_inv in Hm1 as (src & Hrec & ->).
      pose proof Hrec as [[Hstep _ _] _]%get_items_step.
      edestruct (IHm s0a) as [Hsame1 Hout];
        [by eapply same_registries_trans
        | intros m' Hm'; apply Hsub; by right
        | exact Hrest |].
      split; [done |]. intros i Hi. rewrite (Hout i Hi).
      apply (IH _ _ _ _ Hrec). intros Hreach. apply Hi.
      apply reachable_trans with (MountedServer.server m).
      + eapply reachable_mount; [constructor | done |]. apply Hsub. left.
      + exact (reachable_same_registries _ _ _ _ Hsame Hreach). }
  destruct (update_from_mounts _ _ st ∅) as [[st1 acc]|] eqn:Hl; simpl; [| done].
  destruct (Hloop _ _ _ _ _ (same_registries_refl st) (fun m Hm => Hm) Hl)
    as [Hsame1 Hout].
  destruct (servers st1 !! sid) as [self1|] eqn:Hs1; simpl; [| done].
  unfold cache_set. rewrite Hs1; simpl. intros [= <- <-] i Hi; simpl.
  rewrite lookup_insert_ne; [by apply Hout |].
  intros ->. apply Hi. constructor.
Qed.

(** X17 (a listing only fills caches, and only where it goes).  A listing
    call changes no mount dictionary and no manager of any server, clears no
    cache, and leaves untouched every server that cannot be reached from the
    listed one through mounts. *)
Theorem listing_only_fills_reachable_caches fuel cat sid now st st' items :
  get_items fuel cat sid now st = Some (st', items) ->
  same_registries st st'
  /\ (exists sets, cache_events st' = cache_events st ++ sets
                   /\ Forall (fun ev => is_cache_clear ev = false) sets)
  /\ (forall i, ~ reachable st sid i -> servers st' !! i = servers st !! i).
Proof.
  intros Hget. pose proof Hget as [[Hsame _ Hev] _]%get_items_step.
  split; [done |]. split; [done |]. by eapply get_items_confined.
Qed.

End Effects.

(** * The further properties at work on the small world *)

#[local] Existing Instance Demo.collaborators.

Lemma demo_world_lookup i s :
  servers Demo.world !! i = Some s ->
  (i = 0 /\ s = Demo.parent) \/ (i = 1 /\ s = Demo.child).
Proof.
  unfold Demo.world; simpl.
  intros [[<- <-] | [_ [<- <-]%lookup_singleton_Some]]%lookup_insert_Some; auto.
Defined.

Lemma demo_world_mounts i s m :
  servers Demo.world !! i = Some s ->
  m ∈ Py.od_values (_mounted_servers s) ->
  m = Demo.calc.
Proof.
  intros [[_ ->] | [_ ->]]%demo_world_lookup Hm.
  - by apply list_elem_of_singleton in Hm.
  - by apply elem_of_nil in Hm.
Defined.

Lemma cache_is_a_per_key_store_witness :
  TimedCache.get
    (TimedCache.set (TimedCache.set (TimedCache.init 60) "tools" 1 0%Z)
       "prompts" 2 10%Z)
    "tools" 30%Z
  = TimedCache.Found 1.
Proof.
  pose proof (cache_is_a_per_key_store
                (TimedCache.set (TimedCache.init 60) "tools" 1 0%Z) "prompts" 2 10%Z)
    as (Hframe & _).
  rewrite (Hframe "tools" 30%Z); [reflexivity | discriminate].
Defined.

Lemma nonpositive_expiration_never_hits_witness :
  TimedCache.get (TimedCache.set (TimedCache.init 0) "tools" 1 5%Z) "tools" 5%Z
  = TimedCache.NOT_FOUND.
Proof.
  apply (nonpositive_expiration_never_hits (TimedCache.init 0) "tools" 1 5%Z 5%Z).
  - simpl. lia.
  - lia.
Defined.

Lemma match_then_strip_recomposes_witness :
  "calc" +:+ "_" +:+ MountedServer.strip_tool_prefix Demo.calc "calc_add"
  = "calc_add".
Proof.
  apply (match_then_strip_recomposes Demo.calc "calc_add"). reflexivity.
Defined.

Lemma mounted_view_is_prefixed_listing_witness :
  exists st' items,
    MountedServer_get_items (fun target => get_items 1 Tools target 0%Z) Tools
      Demo.calc Demo.world = Some (st', items)
    /\ items !! "calc_add" = Some "child.add"
    /\ size items = 1.
Proof.
  assert (Hchild : exists st',
    get_items 1 Tools 1 0%Z Demo.world = Some (st', {[ "add" := "child.add" ]}))
    by (eexists; vm_compute; reflexivity).
  destruct Hchild as [st' Hchild].
  pose proof (MountedServer_get_items_Some
                (fun target => get_items 1 Tools target 0%Z) Tools Demo.calc
                Demo.world st' _ Hchild) as Hview.
  eexists st', _. split; [exact Hview |].
  destruct (mounted_view_is_prefixed_listing _ _ _ _ _ _ _ Hview)
    as (src & Hsrc & Hiff & Hsize & _).
  change (MountedServer.server Demo.calc) with 1 in Hsrc.
  rewrite Hchild in Hsrc. injection Hsrc as <-.
  split.
  - apply Hiff. exists "add". split; reflexivity.
  - rewrite Hsize. reflexivity.
Defined.

Lemma import_writes_the_mounted_view_witness :
  exists st_b view,
    MountedServer_get_items (fun target => get_items 2 Resources target 0%Z) Resources
      (MountedServer.init "ext" 1 None None None) Demo.world = Some (st_b, view)
    /\ view !! "ext+weather://forecast" = Some "forecast"
    /\ local_at Resources 0 Demo.imported ≫= (fun items => items !! "ext+file://bad")
       = Some "broken".
Proof.
  destruct (import_writes_the_mounted_view 2 0 "ext" 1 None None None 0%Z
              Demo.world Demo.imported) with (cat := Resources)
    as (st_b & view & Hview & Hlocal).
  - vm_compute; reflexivity.
  - assert (Hext : snd <$> MountedServer_get_items
                             (fun target => get_items 2 Resources target 0%Z)
                             Resources (MountedServer.init "ext" 1 None None None)
                             Demo.world
                   = Some {[ "ext+weather://forecast" := "forecast";
                             "ext+file://bad" := "broken" ]})
      by (vm_compute; reflexivity).
    exists st_b, view. split; [exact Hview |].
    rewrite Hview in Hext. injection Hext as ->.
    split; [reflexivity |].
    rewrite Hlocal. vm_compute. reflexivity.
Defined.

Lemma mount_then_unmount_restores_witness :
  exists st1 st2 self2,
    mount 0 "lib" 1 None None None Demo.world = Some (st1, Return ())
    /\ unmount 0 "lib" st1 = Some (st2, Return ())
    /\ servers st2 !! 0 = Some self2
    /\ registry_of self2 = registry_of Demo.parent.
Proof.
  destruct (mount_then_unmount_restores 0 Demo.parent Demo.world "lib" 1
              None None None eq_refl) as [Hround _].
  destruct (Hround eq_refl) as (st1 & st2 & self2 & H1 & H2 & Hs & Hreg & _).
  by exists st1, st2, self2.
Defined.

Lemma parent_listed_same_registries :
  same_registries Demo.world Demo.parent_listed.
Proof.
  apply (step_registries Demo.world Demo.parent_listed).
  apply reads_step.
  eapply (reads_more _ _ _ 2 Tools 0 0%Z); [| apply reads_done].
  vm_compute; reflexivity.
Defined.

Lemma dispatch_reads_no_cache_witness :
  _mcp_call_tool 2 None 0 "calc_add" [] Demo.parent_listed
  = _mcp_call_tool 2 None 0 "calc_add" [] Demo.world.
Proof.
  apply (dispatch_reads_no_cache Demo.world Demo.parent_listed).
  apply parent_listed_same_registries.
Defined.

Lemma mounted_item_is_reached_witness :
  _mcp_call_tool 2 None 0 "calc_add" [] Demo.world = Some (Return "child.add")
  /\ _mcp_read_resource 2 0 "calc+weather://forecast" Demo.world
     = Some (Return [MakeReadResourceContents "forecast" "text/plain"]).
Proof.
  destruct (mounted_item_is_reached 0 None 0 Demo.parent Demo.world [] Demo.calc []
              Demo.child "add" eq_refl eq_refl eq_refl) as (Htool & _ & _).
  destruct (mounted_item_is_reached 0 None 0 Demo.parent Demo.world [] Demo.calc []
              Demo.child "weather://forecast" eq_refl eq_refl eq_refl)
    as (_ & Hres & _).
  split.
  - apply (Htool "child.add" []); [reflexivity | constructor | reflexivity].
  - apply (Hres "forecast"); [reflexivity | constructor | reflexivity].
Defined.

Lemma dispatch_returns_within_key_length_witness :
  is_Some (_mcp_call_tool 9 None 0 "calc_sub" [] Demo.world).
Proof.
  assert (Hclosed : closed_store Demo.world).
  { intros i s m Hs Hm. rewrite (demo_world_mounts i s m Hs Hm).
    exists Demo.child. reflexivity. }
  apply (dispatch_returns_within_key_length Demo.world Hclosed).
  - intros i s m Hs Hm. rewrite (demo_world_mounts i s m Hs Hm). discriminate.
  - exists Demo.parent. reflexivity.
  - simpl. lia.
Defined.

Lemma transparent_self_mount_never_returns_witness :
  _mcp_call_tool 50 None 3 "anything" [] Demo.transparent_world = None.
Proof.
  apply (transparent_self_mount_never_returns None 3 Demo.transparent
           Demo.transparent_world []
           (MountedServer.init "" 3 (Some "") (Some "") (Some "")) []);
    try reflexivity.
  constructor.
Defined.

Lemma listing_never_returns_on_cycle_witness :
  get_items 50 Tools 0 0%Z Demo.self_mounted = None.
Proof.
  apply (listing_never_returns_on_cycle (fun c => c = 0) Tools 0%Z
           Demo.self_mounted 0); [| reflexivity].
  intros c ->. eexists. split; [vm_compute; reflexivity |].
  split; [reflexivity |].
  exists (MountedServer.init "me" 0 None None None). split; [| reflexivity].
  right. left.
Defined.



Lemma fresh_server_is_empty_witness :
  let st := MakeState {[ 5 := FastMCP_init 60 reject warn overwrite ]} [] in
  (exists st', get_items 1 Prompts 5 0%Z st = Some (st', ∅))
  /\ _mcp_read_resource 1 5 "file://x" st
     = Some (Raise (NotFoundError "Unknown resource: file://x")).
Proof.
  intros st.
  destruct (fresh_server_is_empty st 5 60 reject warn overwrite eq_refl)
    as (Hlist & _ & Hread & _).
  split; [apply Hlist; reflexivity | apply Hread].
Defined.

Lemma refused_mutation_writes_nothing_witness :
  mutate (Unmount "nope") 0 Demo.world = Some (Demo.world, Raise (KeyError "nope")).
Proof.
  assert (Hmut : exists st' e,
    mutate (Unmount "nope") 0 Demo.world = Some (st', Raise e))
    by (eexists _, _; vm_compute; reflexivity).
  destruct Hmut as (st' & e & Hmut). rewrite Hmut.
  destruct (refused_mutation_writes_nothing (Unmount "nope") 0 Demo.world st' e
              eq_refl Hmut) as (-> & He & _).
  by rewrite (He "nope" eq_refl).
Defined.

Lemma list_handler_describes_listing_witness :
  exists st' descriptors,
    _mcp_list_tools (fun item key => (key, item)) 2 0 0%Z Demo.world
      = Some (st', descriptors)
    /\ length descriptors = 2
    /\ ("add", "parent.add") ∈ descriptors.
Proof.
  assert (Hlist : exists st' descriptors,
    _mcp_list_tools (fun item key => (key, item)) 2 0 0%Z Demo.world
    = Some (st', descriptors))
    by (eexists _, _; vm_compute; reflexivity).
  destruct Hlist as (st' & descriptors & Hlist).
  exists st', descriptors. split; [exact Hlist |].
  destruct (list_handler_describes_listing _ _ _ _ _ _ _ _ Hlist)
    as (items & Hget & Hlen & _ & Hlocal).
  split.
  - rewrite Hlen.
    assert (Hsize : snd <$> get_items 2 Tools 0 0%Z Demo.world
                    = Some {[ "add" := "parent.add"; "calc_add" := "child.add" ]})
      by (vm_compute; reflexivity).
    rewrite Hget in Hsize. injection Hsize as ->. reflexivity.
  - assert (Hag : cache_agrees_with_local Demo.world 0).
    { apply empty_cache_agrees. intros self Hs.
      by apply demo_world_lookup in Hs as [[_ ->] | [_ ->]]. }
    apply (Hlocal Hag Demo.parent "add" "parent.add"); reflexivity.
Defined.

Lemma run_keeps_agreement_witness :
  cache_agrees_with_local Demo.child_grown 0
  /\ cache_agrees_with_local Demo.child_grown 1.
Proof.
  assert (Hrun : run Demo.world Demo.child_grown).
  { eapply (run_listing _ Demo.parent_listed _ 2 Tools 0 0%Z);
      [vm_compute; reflexivity |].
    eapply (run_mutation _ Demo.child_grown _ Demo.add_sub 1);
      [vm_compute; reflexivity |].
    apply run_done. }
  assert (Hstart : forall i, cache_agrees_with_local Demo.world i).
  { intros i. apply empty_cache_agrees. intros self Hs.
    by apply demo_world_lookup in Hs as [[_ ->] | [_ ->]]. }
  split; apply (run_keeps_agreement _ _ Hrun Hstart).
Defined.

Lemma listing_only_fills_reachable_caches_witness :
  exists st' items,
    get_items 1 Tools 1 0%Z Demo.world = Some (st', items)
    /\ servers st' !! 0 = servers Demo.world !! 0.
Proof.
  assert (Hget : exists st' items,
    get_items 1 Tools 1 0%Z Demo.world = Some (st', items))
    by (eexists _, _; vm_compute; reflexivity).
  destruct Hget as (st' & items & Hget).
  exists st', items. split; [exact Hget |].
  destruct (listing_only_fills_reachable_caches _ _ _ _ _ _ _ Hget)
    as (_ & _ & Hout).
  apply Hout. intros Hreach.
  remember 1 as a eqn:Ha. remember 0 as b eqn:Hb.
  induction Hreach as [|i s m Hprev IH Hs Hm]; [congruence |].
  rewrite (demo_world_mounts i s m Hs Hm) in Hb. discriminate Hb.
Defined.
